(** * pytok: pagination drivers, entity normalisation and lazy user resolution

    A shallow embedding of [TikTokApi/api/user.py], [pytok/api/search.py]
    and [pytok/exceptions.py].

    Python values decoded from JSON are modelled by the inductive [json];
    Python exceptions by [exn]; the browser session, the HTTP collaborator
    and the standard-library decoders are fields of an environment record
    [Env] whose answers may depend on everything the program has done so
    far (the history of events).  Generators are modelled by the list of
    events they emit ([Yield], [Log] and browser actions [Act]) together
    with the way they end. *)

From Stdlib Require Import List String Ascii ZArith QArith Bool Lia.
Import ListNotations.

Local Open Scope string_scope.
Local Open Scope Z_scope.

#[local] Set Warnings "-register-all".

(** ** Python values *)

(** A value produced by [json.loads].  Python strings are modelled by
    [string], one [ascii] per code point (code points below 256); the
    finite floats by the rationals they denote (the non-standard tokens
    NaN and Infinity are outside the model); a dict by its association
    list in insertion order. *)
Inductive json : Type :=
| JNull
| JBool (b : bool)
| JInt (n : Z)
| JFloat (q : Q)
| JStr (s : string)
| JArr (l : list json)
| JObj (m : list (string * json)).

(** The exceptions of [pytok/exceptions.py] and the built-in ones the
    modelled code can raise. *)
Inductive exn : Type :=
| TypeError
| KeyError
| IndexError
| AttributeError
| ValueError
| UnboundLocalError
| JSONDecodeError
| TikTokException
| CaptchaException
| NotFoundException (msg : string)
| EmptyResponseException
| SoundRemovedException
| InvalidJSONException
| NotAvailableException
| NoContentException
| TimeoutException
| ApiFailedException
| FewerVideosThanExpectedException
| AccountPrivateException.

(** A computation that returns or raises. *)
Inductive res (A : Type) : Type :=
| Ok (a : A)
| Err (e : exn).
Arguments Ok {A} a.
Arguments Err {A} e.

Definition bind {A B : Type} (r : res A) (k : A -> res B) : res B :=
  match r with
  | Ok a => k a
  | Err e => Err e
  end.

Notation "'do' x <- r ; k" := (bind r (fun x => k))
  (at level 10, x name, r at level 100, k at level 200).

(** *** Dictionaries *)

Fixpoint dict_get (k : string) (m : list (string * json)) : option json :=
  match m with
  | [] => None
  | (k', v) :: m' => if String.eqb k k' then Some v else dict_get k m'
  end.

(** [d[k] = v] on a dict: an existing key keeps its position. *)
Fixpoint dict_set (k : string) (v : json) (m : list (string * json))
  : list (string * json) :=
  match m with
  | [] => [(k, v)]
  | (k', v') :: m' =>
      if String.eqb k k' then (k', v) :: m' else (k', v') :: dict_set k v m'
  end.

Definition dict_has (k : string) (m : list (string * json)) : bool :=
  match dict_get k m with Some _ => true | None => false end.

(** [d.get(k, default)] *)
Definition dict_get_default (k : string) (m : list (string * json))
  (default : json) : json :=
  match dict_get k m with Some v => v | None => default end.

(** *** Sequences *)

Fixpoint chars (s : string) : list json :=
  match s with
  | EmptyString => []
  | String c s' => JStr (String c EmptyString) :: chars s'
  end.

(** Python indexing of a sequence by an integer: negative indices count
    from the end. *)
Definition seq_index {A : Type} (l : list A) (i : Z) : res A :=
  let n := Z.of_nat (List.length l) in
  let j := if i <? 0 then i + n else i in
  if (0 <=? j) && (j <? n) then
    match nth_error l (Z.to_nat j) with
    | Some x => Ok x
    | None => Err IndexError
    end
  else Err IndexError.

(** [x[k]] *)
Definition py_getitem (x k : json) : res json :=
  match x with
  | JObj m =>
      match k with
      | JStr s => match dict_get s m with Some v => Ok v | None => Err KeyError end
      | JArr _ | JObj _ => Err TypeError
      | _ => Err KeyError
      end
  | JArr l =>
      match k with
      | JInt i => seq_index l i
      | JBool b => seq_index l (if b then 1 else 0)
      | _ => Err TypeError
      end
  | JStr s =>
      match k with
      | JInt i => seq_index (chars s) i
      | JBool b => seq_index (chars s) (if b then 1 else 0)
      | _ => Err TypeError
      end
  | _ => Err TypeError
  end.

(** [x["key"]] with a string literal. *)
Definition item (x : json) (k : string) : res json := py_getitem x (JStr k).

(** [iter(x)]: the elements a [for] loop visits. *)
Definition py_iter (x : json) : res (list json) :=
  match x with
  | JArr l => Ok l
  | JObj m => Ok (map (fun kv => JStr (fst kv)) m)
  | JStr s => Ok (chars s)
  | _ => Err TypeError
  end.

(** [len(x)] *)
Definition py_len (x : json) : res Z :=
  match x with
  | JArr l => Ok (Z.of_nat (List.length l))
  | JObj m => Ok (Z.of_nat (List.length m))
  | JStr s => Ok (Z.of_nat (String.length s))
  | _ => Err TypeError
  end.

(** *** Truth value and equality *)

(** [bool(x)] *)
Definition truthy (x : json) : bool :=
  match x with
  | JNull => false
  | JBool b => b
  | JInt n => negb (n =? 0)
  | JFloat q => negb (Qnum q =? 0)
  | JStr s => negb (String.eqb s EmptyString)
  | JArr l => match l with [] => false | _ => true end
  | JObj m => match m with [] => false | _ => true end
  end.

(** The number denoted by a bool, an int or a float. *)
Definition num_of (x : json) : option Q :=
  match x with
  | JBool b => Some (inject_Z (if b then 1 else 0))
  | JInt n => Some (inject_Z n)
  | JFloat q => Some q
  | _ => None
  end.

(** [x == n] for an integer literal [n]. *)
Definition py_eq_int (x : json) (n : Z) : bool :=
  match num_of x with
  | Some q => Qeq_bool q (inject_Z n)
  | None => false
  end.

(** [x == "lit"] for a string literal. *)
Definition py_eq_str (x : json) (lit : string) : bool :=
  match x with
  | JStr s => String.eqb s lit
  | _ => false
  end.

(** [x is None] *)
Definition is_none (x : json) : bool :=
  match x with JNull => true | _ => false end.

(** [a == b] on decoded values: numbers compare by value, dicts
    regardless of order. *)
Fixpoint py_eq (a b : json) {struct a} : bool :=
  match a with
  | JNull => is_none b
  | JBool _ | JInt _ | JFloat _ =>
      match num_of a, num_of b with
      | Some p, Some q => Qeq_bool p q
      | _, _ => false
      end
  | JStr s => py_eq_str b s
  | JArr l =>
      match b with
      | JArr l' =>
          (fix go (xs ys : list json) {struct xs} : bool :=
             match xs, ys with
             | [], [] => true
             | x :: xs', y :: ys' => py_eq x y && go xs' ys'
             | _, _ => false
             end) l l'
      | _ => false
      end
  | JObj m =>
      match b with
      | JObj m' =>
          Nat.eqb (List.length m) (List.length m') &&
          (fix go (kvs : list (string * json)) {struct kvs} : bool :=
             match kvs with
             | [] => true
             | (k, v) :: kvs' =>
                 match dict_get k m' with
                 | Some v' => py_eq v v'
                 | None => false
                 end && go kvs'
             end) m
      | _ => false
      end
  end.

(** *** [int(x)] *)

Definition is_space (c : ascii) : bool :=
  let n := nat_of_ascii c in
  existsb (Nat.eqb n) [9; 10; 11; 12; 13; 28; 29; 30; 31; 32; 133; 160]%nat.

Definition digit_of (c : ascii) : option Z :=
  let n := nat_of_ascii c in
  if ((48 <=? n) && (n <=? 57))%nat then Some (Z.of_nat (n - 48)) else None.

Fixpoint lstrip (cs : list ascii) : list ascii :=
  match cs with
  | c :: cs' => if is_space c then lstrip cs' else cs
  | [] => []
  end.

Definition strip (cs : list ascii) : list ascii :=
  rev (lstrip (rev (lstrip cs))).

(** Decimal digits, single underscores allowed between two digits.
    [after_digit] tells whether the previous character was a digit. *)
Fixpoint parse_digits (cs : list ascii) (acc : Z) (after_digit : bool)
  : option Z :=
  match cs with
  | [] => if after_digit then Some acc else None
  | c :: cs' =>
      match digit_of c with
      | Some d => parse_digits cs' (10 * acc + d) true
      | None =>
          if Ascii.eqb c "_"%char && after_digit
          then parse_digits cs' acc false
          else None
      end
  end.

(** [int(s)] for a string, base ten (the interpreter's optional limit on
    the number of digits is not modelled). *)
Definition int_of_str (s : string) : res Z :=
  let body := strip (list_ascii_of_string s) in
  let signed :=
    match body with
    | c :: cs =>
        if Ascii.eqb c "-"%char then option_map Z.opp (parse_digits cs 0 false)
        else if Ascii.eqb c "+"%char then parse_digits cs 0 false
        else parse_digits body 0 false
    | [] => None
    end in
  match signed with
  | Some n => Ok n
  | None => Err ValueError
  end.

Definition py_int (x : json) : res Z :=
  match x with
  | JStr s => int_of_str s
  | JInt n => Ok n
  | JBool b => Ok (if b then 1 else 0)
  | JFloat q => Ok (Z.quot (Qnum q) (Zpos (Qden q)))
  | _ => Err TypeError
  end.

(** ** Entities, events and the environment *)

(** A captured network request with the body of its response. *)
Record Request : Type := { url : string; body : string }.

(** [class User]: the triple of identifiers ([None] is [JNull]) and the
    raw data, when the object was built from data. *)
Record User : Type := {
  username : json;
  user_id : json;
  sec_uid : json;
  as_dict : option json
}.

(** What a pagination sequence yields. *)
Inductive entity : Type :=
| IUser (u : User)
| IVideo (data : json).

Inductive level : Type := Info | Error.

(** Calls on the collaborators: the browser session, the rate limiter and
    the HTTP client. *)
Inductive action : Type :=
| Goto (target : string)
| WaitForContent (selector : string)
| GetRequests (path : string)
| ResponseBody (r : Request)
| ScrollToBottom (speed : option Z)
| SlightScrollUp
| WaitNotSkeleton (selector : string)
| RequestDelay
| HttpGet (target : string)
| GetData (id secUid cursor : json).

(** What a run does, in order: items handed to the consumer, log
    records, collaborator calls. *)
Inductive event : Type :=
| Yield (i : entity)
| Log (l : level) (msg : string)
| Act (a : action).

Definition trace : Type := list event.

(** How a run ends: normally, by an exception, or not within the given
    number of loop iterations. *)
Inductive outcome (A : Type) : Type :=
| Done (a : A)
| Raised (e : exn)
| OutOfFuel.
Arguments Done {A} a.
Arguments Raised {A} e.
Arguments OutOfFuel {A}.

Definition status : Type := outcome unit.
Definition Returned : status := Done tt.

(** Everything the sources call but do not define.  The answers of the
    session, of the HTTP client and of the site depend on the history:
    all events up to and including the call.

    - [json_loads]: [json.loads]; [None] stands for [JSONDecodeError].
    - [extract_tag_contents]: [helpers.extract_tag_contents].
    - [py_str]: [str(x)], as used by string formatting.
    - [quote]: [urllib.parse.quote] on a string.
    - [get_requests]: [Base.get_requests], the captured requests whose
      URL contains the path, in observation order.
    - [wait_for_content_or_captcha], [wait_until_not_skeleton_or_captcha]:
      the Content-State Waiter; [Some e] when it raises [e].
    - [requests_get]: the text of [requests.get(url, ...)].
    - [get_data]: [parent.get_data] for the favourite-list endpoint.
    - [search_users]: Modelled from the spec: [parent.search.users] of
      the [TikTokApi] package, whose file is not among the sources; the
      events a complete consumption of the search-by-username sequence
      emits after the given history, and how it ends. *)
Record Env : Type := {
  json_loads : string -> option json;
  extract_tag_contents : string -> res string;
  py_str : json -> string;
  quote : string -> string;
  get_requests : trace -> string -> list Request;
  wait_for_content_or_captcha : trace -> string -> option exn;
  wait_until_not_skeleton_or_captcha : trace -> string -> option exn;
  requests_get : trace -> string -> res string;
  get_data : trace -> json -> json -> json -> res json;
  search_users : trace -> json -> trace * status
}.

(** Modelled from the spec: [Base.get_response_body], which fails with
    [EmptyResponseException] if the body is empty. *)
Definition get_response_body (r : Request) : res string :=
  if String.eqb (body r) EmptyString then Err EmptyResponseException else Ok (body r).

(** Modelled from the spec: [parent.video(data=...)] and [Video(data=...)],
    a Video being the raw mapping of site-provided fields. *)
Definition video (data : json) : entity := IVideo data.

(** Control after one pass through the body of a [for] loop over
    captured requests: go on with the next request, [return] from the
    generator, or propagate an exception. *)
Inductive ctl (S : Type) : Type :=
| Next (s : S)
| Stop (s : S)
| Throw (e : exn) (s : S).
Arguments Next {S} s.
Arguments Stop {S} s.
Arguments Throw {S} e s.

Definition nl : string := String (ascii_of_nat 10) EmptyString.

(** Number of items a trace hands to the consumer. *)
Fixpoint yielded (t : trace) : Z :=
  match t with
  | [] => 0
  | Yield _ :: t' => 1 + yielded t'
  | _ :: t' => yielded t'
  end.

(** A trace without the items: the log records and collaborator calls. *)
Definition without_items (t : trace) : trace :=
  filter (fun e => match e with Yield _ => false | _ => true end) t.

(** The items themselves, in order. *)
Fixpoint items_of (t : trace) : list entity :=
  match t with
  | [] => []
  | Yield i :: t' => i :: items_of t'
  | _ :: t' => items_of t'
  end.

(** The variables a pagination loop carries.  [urls] is [searched_urls]
    in [User.videos] and [processed_urls] in [Search.search_type];
    [emitted] holds the events of the run so far. *)
Record run : Type := {
  urls : list string;
  amount_yielded : Z;
  emitted : trace
}.

Definition emit (st : run) (evs : trace) : run :=
  {| urls := urls st; amount_yielded := amount_yielded st;
     emitted := (emitted st ++ evs)%list |}.

(** The [for request in search_requests] loop around a loop body. *)
Fixpoint for_each_request (step : Request -> run -> ctl run)
  (requests : list Request) (st : run) : ctl run :=
  match requests with
  | [] => Next st
  | request :: rest =>
      match step request st with
      | Next st' => for_each_request step rest st'
      | Stop st' => Stop st'
      | Throw e st' => Throw e st'
      end
  end.

Fixpoint map_res {A B : Type} (f : A -> res B) (l : list A) : res (list B) :=
  match l with
  | [] => Ok []
  | x :: l' => do y <- f x; do ys <- map_res f l'; Ok (y :: ys)
  end.

(** [x[k] = v] with a string literal key. *)
Definition py_setitem (x : json) (k : string) (v : json) : res json :=
  match x with
  | JObj m => Ok (JObj (dict_set k v m))
  | _ => Err TypeError
  end.

(** ** [class User] *)

Module TikTokUser.

Section UserClass.

Context (env : Env).

(** [User.__update_id_sec_uid_username] *)
Definition update_id_sec_uid_username (self : User) (id sec username_ : json)
  : User :=
  {| username := username_; user_id := id; sec_uid := sec;
     as_dict := as_dict self |}.

(** [User.__extract_from_data]: the log records it writes and the
    updated object, or the exception. *)
Definition extract_from_data (self : User) (data : json)
  : trace * res User :=
  match data with
  | JObj m =>
      let updated :=
        if dict_has "user_info" m then
          do info <- item data "user_info";
          do uid <- item info "uid";
          do sec <- item info "sec_uid";
          do unique <- item info "unique_id";
          Ok (update_id_sec_uid_username self uid sec unique)
        else if dict_has "uniqueId" m then
          do id <- item data "id";
          do sec <- item data "secUid";
          do unique <- item data "uniqueId";
          Ok (update_id_sec_uid_username self id sec unique)
        else Ok self in
      match updated with
      | Ok u =>
          if is_none (username u) || is_none (user_id u) || is_none (sec_uid u)
          then ([Log Error ("Failed to create User with data: "
                            ++ py_str env data ++ nl ++ "which has keys "
                            ++ "dict_keys("
                            ++ py_str env (JArr (map (fun kv => JStr (fst kv)) m))
                            ++ ")")],
                Ok u)
          else ([], Ok u)
      | Err e => ([], Err e)
      end
  | _ => ([], Err AttributeError)
  end.

(** [User.__init__]; an absent argument is [JNull]. *)
Definition User_init (username_ id sec data : json) : trace * res User :=
  let self := {| username := username_; user_id := id; sec_uid := sec;
                 as_dict := None |} in
  if is_none data then ([], Ok self)
  else
    extract_from_data
      {| username := username_; user_id := id; sec_uid := sec;
         as_dict := Some data |} data.

(** [User(data=result)] *)
Definition User_of_data (data : json) : trace * res User :=
  User_init JNull JNull JNull data.

(** *** [User.info_full] and [User.info] *)

(** The address fetched at lines 97-99. *)
Definition profile_url (name : string) : string :=
  let quoted_username := quote env name in
  "https://tiktok.com/@" ++ quoted_username ++ "?lang=en".

(** The message of line 118. *)
Definition not_found_message (name : string) : string :=
  "TikTok user with username " ++ name ++ " does not exist".

(** [User.info_full] (lines 92-121), after history [h]: the events it
    emits and its result. *)
Definition info_full (h : trace) (self : User) : trace * res json :=
  if negb (truthy (username self)) then ([], Err TypeError)
  else
    match username self with
    | JStr name =>
        let target := profile_url name in
        let out := [Act (HttpGet target)] in
        (out,
         do text <- requests_get env (h ++ out)%list target;
         do data <- extract_tag_contents env text;
         match json_loads env data with
         | None => Err JSONDecodeError
         | Some user =>
             do props <- item user "props";
             do user_props <- item props "pageProps";
             do code <- item user_props "statusCode";
             if py_eq_int code 404
             then Err (NotFoundException (not_found_message name))
             else item user_props "userInfo"
         end)
    | _ => ([], Err TypeError)
    end.

(** [User.info] *)
Definition info (h : trace) (self : User) : trace * res json :=
  let '(out, r) := info_full h self in
  (out, do full <- r; item full "user").

(** *** [User.videos] *)

(** [res["UserModule"]["users"][author_name][field]] *)
Definition users_field (page author_name : json) (field : string) : res json :=
  do module <- item page "UserModule";
  do users <- item module "users";
  do entry <- py_getitem users author_name;
  item entry field.

(** The body of the loop over the first page's videos (lines 167-185):
    the video after the two assignments. *)
Definition normalize_video (page video0 : json) : res json :=
  do created <- item video0 "createTime";
  do seconds <- py_int created;
  do video1 <- py_setitem video0 "createTime" (JInt seconds);
  do author_name <- item video1 "author";
  do id <- item video1 "authorId";
  do nickname <- item video1 "nickname";
  do avatarThumb <- item video1 "avatarThumb";
  do signature <- users_field page author_name "signature";
  do verified <- users_field page author_name "verified";
  do secUid <- item video1 "authorSecId";
  do secret <- users_field page author_name "secret";
  do ftc <- users_field page author_name "ftc";
  do relation <- users_field page author_name "relation";
  do openFavorite <- users_field page author_name "openFavorite";
  do commentSetting <- users_field page author_name "commentSetting";
  do duetSetting <- users_field page author_name "duetSetting";
  do stitchSetting <- users_field page author_name "stitchSetting";
  do privateAccount <- users_field page author_name "privateAccount";
  py_setitem video1 "author"
    (JObj [("id", id); ("uniqueId", author_name); ("nickname", nickname);
           ("avatarThumb", avatarThumb); ("signature", signature);
           ("verified", verified); ("secUid", secUid); ("secret", secret);
           ("ftc", ftc); ("relation", relation);
           ("openFavorite", openFavorite);
           ("commentSetting", commentSetting);
           ("duetSetting", duetSetting); ("stitchSetting", stitchSetting);
           ("privateAccount", privateAccount)]).

(** Lines 165-185: the values of [res['ItemModule']], each normalised. *)
Definition first_page_videos (page : json) : res (list json) :=
  do module <- item page "ItemModule";
  match module with
  | JObj m => map_res (normalize_video page) (map snd m)
  | _ => Err AttributeError
  end.

(** What lines 161-193 make of a body: a captcha-denied response that is
    skipped, or the decoded [res] and its [videos]. *)
Inductive decoded : Type :=
| Denied
| Page (page videos : json).

Definition decode (request_num : Z) (text : string) : res decoded :=
  if request_num =? 1 then
    do tag_contents <- extract_tag_contents env text;
    match json_loads env tag_contents with
    | None => Err JSONDecodeError
    | Some page =>
        do videos <- first_page_videos page;
        Ok (Page page (JArr videos))
    end
  else if request_num >? 1 then
    match json_loads env text with
    | None => Err JSONDecodeError
    | Some (JObj m) =>
        if py_eq_str (dict_get_default "type" m JNull) "verify"
        then Ok Denied
        else Ok (Page (JObj m) (dict_get_default "itemList" m (JArr [])))
    | Some _ => Err AttributeError
    end
  else Err UnboundLocalError.

(** Lines 199-202. *)
Definition has_more_of (request_num : Z) (page : json) : res json :=
  if request_num =? 1 then
    do list <- item page "ItemList";
    do posts <- item list "user-post";
    item posts "hasMore"
  else
    match page with
    | JObj m => Ok (dict_get_default "hasMore" m (JBool false))
    | _ => Err AttributeError
    end.

Definition no_more_tiktoks : string :=
  "TikTok isn't sending more TikToks beyond this point.".

(** Lines 195-208: the videos are counted and handed out, then the
    has-more flag decides whether the generator returns. *)
Definition hand_out (request_num : Z) (page videos : json) (st1 : run)
  : ctl run :=
  match py_len videos, py_iter videos with
  | Ok n, Ok vs =>
      let st2 := {| urls := urls st1;
                    amount_yielded := amount_yielded st1 + n;
                    emitted := (emitted st1
                                ++ map (fun v => Yield (video v)) vs)%list |} in
      match has_more_of request_num page with
      | Err e => Throw e st2
      | Ok has_more =>
          if truthy has_more then Next st2
          else Stop (emit st2 [Log Info no_more_tiktoks])
      end
  | Err e, _ => Throw e st1
  | _, Err e => Throw e st1
  end.

(** The body of [for request in search_requests] (lines 158-208). *)
Definition videos_response (request_num : Z) (request : Request) (st : run)
  : ctl run :=
  let st1 := {| urls := (urls st ++ [url request])%list;
                amount_yielded := amount_yielded st;
                emitted := (emitted st ++ [Act (ResponseBody request)])%list |} in
  match get_response_body request with
  | Err e => Throw e st1
  | Ok text =>
      match decode request_num text with
      | Err e => Throw e st1
      | Ok Denied => Next st1
      | Ok (Page page videos) => hand_out request_num page videos st1
      end
  end.

(** Lines 151-154; [None] when neither branch binds [path]. *)
Definition videos_path (self : User) (request_num : Z) : option string :=
  if request_num =? 1 then Some ("@" ++ py_str env (username self))
  else if request_num >? 1 then Some "api/post/item_list"
  else None.

(** The [while amount_yielded < count] loop (lines 149-216), run for at
    most [fuel] iterations. *)
Fixpoint videos_loop (fuel : nat) (h : trace) (self : User)
  (count request_num : Z) (st : run) : trace * status :=
  if amount_yielded st <? count then
    match fuel with
    | O => (emitted st, OutOfFuel)
    | S fuel' =>
        match videos_path self request_num with
        | None => (emitted st, Raised UnboundLocalError)
        | Some path =>
            let st1 := emit st [Act (GetRequests path)] in
            let search_requests :=
              get_requests env (h ++ emitted st1)%list path in
            match for_each_request (videos_response request_num)
                    search_requests st1 with
            | Stop st2 => (emitted st2, Returned)
            | Throw e st2 => (emitted st2, Raised e)
            | Next st2 =>
                let st3 :=
                  emit st2 [Act (ScrollToBottom None);
                            Act (WaitNotSkeleton "video-skeleton-container")] in
                match wait_until_not_skeleton_or_captcha env
                        (h ++ emitted st3)%list "video-skeleton-container" with
                | Some e => (emitted st3, Raised e)
                | None =>
                    videos_loop fuel' h self count (request_num + 1)
                      (emit st3 [Act RequestDelay])
                end
            end
        end
    end
  else (emitted st, Returned).

(** [User.videos(count)], consumed to the end after history [h]. *)
Definition videos (fuel : nat) (h : trace) (self : User) (count : Z)
  : trace * status :=
  let out := [Act (Goto ("https://www.tiktok.com/@" ++ py_str env (username self)));
              Act (WaitForContent "user-post-item")] in
  match wait_for_content_or_captcha env (h ++ out)%list "user-post-item" with
  | Some e => (out, Raised e)
  | None =>
      videos_loop fuel h self count 1
        {| urls := []; amount_yielded := 0; emitted := out |}
  end.

(** *** [User.__find_attributes] *)

(** How the loop of lines 311-315 leaves the search sequence. *)
Inductive scan : Type :=
| Match (u : User)
| Exhausted
| Broken (e : exn).

(** The [for u in ...: if u.username == self.username: ... break] loop
    over the events of the search sequence: the collaborator calls and
    log records performed while the loop pulls items (the items stay
    inside the loop), and the way the loop ends.  A yielded object
    without a [username] attribute breaks the loop with
    [AttributeError]. *)
Fixpoint scan_users (name : json) (evs : trace) : trace * scan :=
  match evs with
  | [] => ([], Exhausted)
  | Yield (IUser u) :: rest =>
      if py_eq (username u) name then ([], Match u)
      else scan_users name rest
  | Yield (IVideo d) :: rest => ([], Broken AttributeError)
  | e :: rest =>
      let '(consumed, r) := scan_users name rest in (e :: consumed, r)
  end.

(** [User.__find_attributes] (lines 308-321): the events and the updated
    object. *)
Definition find_attributes (h : trace) (self : User) : trace * outcome User :=
  let '(evs, ending) := search_users env h (username self) in
  match scan_users (username self) evs with
  | (consumed, Match u) =>
      (consumed,
       Done (update_id_sec_uid_username self (user_id u) (sec_uid u) (username u)))
  | (consumed, Broken e) => (consumed, Raised e)
  | (consumed, Exhausted) =>
      match ending with
      | Raised e => (consumed, Raised e)
      | OutOfFuel => (consumed, OutOfFuel)
      | Done _ =>
          let '(out, r) := info (h ++ consumed)%list self in
          ((consumed ++ out)%list,
           match (do user_object <- r;
                  do id <- item user_object "id";
                  do sec <- item user_object "secUid";
                  do unique <- item user_object "uniqueId";
                  Ok (update_id_sec_uid_username self id sec unique)) with
           | Ok self' => Done self'
           | Err e => Raised e
           end)
      end
  end.

(** *** [User.liked] *)

Definition likes_private : string := "User's likes are most likely private".

(** Lines 270-272: [amount_yielded += 1] and a [yield] for each video. *)
Fixpoint liked_yields (vs : list json) (amount : Z) (out : trace)
  : Z * trace :=
  match vs with
  | [] => (amount, out)
  | v :: vs' => liked_yields vs' (amount + 1) (out ++ [Yield (video v)])%list
  end.

(** The [while amount_yielded < count] loop of [User.liked] (lines
    244-281), run for at most [fuel] iterations; [amount], [cursor],
    [first] and [out] are the loop's variables. *)
Fixpoint liked_loop (fuel : nat) (h : trace) (self : User) (count : Z)
  (cursor : json) (first : bool) (amount : Z) (out : trace)
  : trace * status :=
  if amount <? count then
    match fuel with
    | O => (out, OutOfFuel)
    | S fuel' =>
        let out1 :=
          (out ++ [Act (GetData (user_id self) (sec_uid self) cursor)])%list in
        match get_data env (h ++ out1)%list
                (user_id self) (sec_uid self) cursor with
        | Err e => (out1, Raised e)
        | Ok (JObj m) =>
            if negb (dict_has "itemList" m) then
              ((if first then out1 ++ [Log Error likes_private] else out1)%list,
               Returned)
            else
              let videos := dict_get_default "itemList" m (JArr []) in
              match py_len videos, py_iter videos with
              | Ok n, Ok vs =>
                  let '(amount1, out2) := liked_yields vs (amount + n) out1 in
                  if negb (truthy (dict_get_default "hasMore" m (JBool false)))
                     && negb first
                  then ((out2 ++ [Log Info no_more_tiktoks])%list, Returned)
                  else
                    match item (JObj m) "cursor" with
                    | Err e => (out2, Raised e)
                    | Ok cursor' =>
                        liked_loop fuel' h self count cursor' false amount1 out2
                    end
              | Err e, _ => (out1, Raised e)
              | _, Err e => (out1, Raised e)
              end
        | Ok _ => (out1, Raised AttributeError)
        end
    end
  else (out, Returned).

(** Lines 241-242: the identifiers are resolved when both are unknown. *)
Definition resolve (h : trace) (self : User) : trace * outcome User :=
  if is_none (user_id self) && is_none (sec_uid self)
  then find_attributes h self
  else ([], Done self).

(** [User.liked(count, cursor)], consumed to the end after history [h].
    The query of lines 245-259 is represented by the three values that
    vary, the two identifiers and the cursor; [_process_kwargs] only
    supplies the constant region and language. *)
Definition liked (fuel : nat) (h : trace) (self : User) (count : Z)
  (cursor : json) : trace * status :=
  match resolve h self with
  | (out, Done self') => liked_loop fuel h self' count cursor true 0 out
  | (out, Raised e) => (out, Raised e)
  | (out, OutOfFuel) => (out, OutOfFuel)
  end.

End UserClass.

End TikTokUser.

(** ** [class Search] *)

Module Search.

Section SearchClass.

Context (env : Env).

Definition no_more_videos : string :=
  "TikTok is not sending videos beyond this point.".

(** Lines 119-121: [yield User(data=result)] and [amount_yielded += 1]
    for each result. *)
Fixpoint yield_users (results : list json) (st : run) : ctl run :=
  match results with
  | [] => Next st
  | result :: rest =>
      match TikTokUser.User_of_data env result with
      | (logs, Err e) => Throw e (emit st logs)
      | (logs, Ok u) =>
          yield_users rest
            {| urls := urls st; amount_yielded := amount_yielded st + 1;
               emitted := (emitted st ++ logs ++ [Yield (IUser u)])%list |}
      end
  end.

(** Lines 124-126. *)
Fixpoint yield_videos (results : list json) (st : run) : ctl run :=
  match results with
  | [] => Next st
  | result :: rest =>
      yield_videos rest
        {| urls := urls st; amount_yielded := amount_yielded st + 1;
           emitted := (emitted st ++ [Yield (video result)])%list |}
  end.

(** One [if obj_type == kind: for result in res.get(key, []): ...]. *)
Definition yield_list (enabled : bool) (results : json)
  (yield_all : list json -> run -> ctl run) (st : run) : ctl run :=
  if enabled then
    match py_iter results with
    | Ok rs => yield_all rs st
    | Err e => Throw e st
    end
  else Next st.

(** Lines 118-126: the two [if obj_type == ...] blocks that hand out the
    results of the decoded response [res]. *)
Definition hand_out (obj_type : string) (m : list (string * json)) (st : run)
  : ctl run :=
  match yield_list (String.eqb obj_type "user")
          (dict_get_default "user_list" m (JArr [])) yield_users st with
  | Next st2 =>
      yield_list (String.eqb obj_type "item")
        (dict_get_default "item_list" m (JArr [])) yield_videos st2
  | other => other
  end.

(** The body of [for request in search_requests] (lines 108-134). *)
Definition search_response (obj_type : string) (request : Request) (st : run)
  : ctl run :=
  let st1 := {| urls := (urls st ++ [url request])%list;
                amount_yielded := amount_yielded st;
                emitted := (emitted st ++ [Act (ResponseBody request)])%list |} in
  match get_response_body request with
  | Err e => Throw e st1
  | Ok text =>
      match json_loads env text with
      | None => Next st1
      | Some (JObj m) =>
          if py_eq_str (dict_get_default "type" m JNull) "verify" then Next st1
          else
            match hand_out obj_type m st1 with
            | Next st3 =>
                if py_eq_int (dict_get_default "has_more" m (JInt 0)) 0
                then Stop (emit st3 [Log Info no_more_videos])
                else Next st3
            | other => other
            end
      | Some _ => Throw AttributeError st1
      end
  end.

Definition skeleton : string := "video-skeleton-container".

(** Line 106: the captured requests whose URL is not in [processed_urls]. *)
Definition fresh_requests (processed_urls : list string)
  (search_requests : list Request) : list Request :=
  filter (fun request =>
            negb (existsb (String.eqb (url request)) processed_urls))
    search_requests.

(** The [while amount_yielded < count] loop (lines 101-142), run for at
    most [fuel] iterations.  [pull_method] is 'browser' wherever it is
    assigned (lines 97 and 153), so the branch of line 144 is never
    taken and is not part of the model. *)
Fixpoint search_loop (fuel : nat) (h : trace) (path obj_type : string)
  (count : Z) (st : run) : trace * status :=
  if amount_yielded st <? count then
    match fuel with
    | O => (emitted st, OutOfFuel)
    | S fuel' =>
        let st1 := emit st [Act RequestDelay; Act (GetRequests path)] in
        let search_requests :=
          fresh_requests (urls st1)
            (get_requests env (h ++ emitted st1)%list path) in
        match for_each_request (search_response obj_type)
                search_requests st1 with
        | Stop st2 => (emitted st2, Returned)
        | Throw e st2 => (emitted st2, Raised e)
        | Next st2 =>
            let st3 :=
              emit st2 [Act RequestDelay; Act SlightScrollUp; Act RequestDelay;
                        Act (ScrollToBottom (Some 8));
                        Act (WaitNotSkeleton skeleton)] in
            match wait_until_not_skeleton_or_captcha env
                    (h ++ emitted st3)%list skeleton with
            | Some e => (emitted st3, Raised e)
            | None => search_loop fuel' h path obj_type count st3
            end
        end
    end
  else (emitted st, Returned).

Definition item_list_selector : string := "[data-e2e='search_video-item-list']".

(** [Search.search_type(obj_type, count)], consumed to the end after
    history [h]. *)
Definition search_type (fuel : nat) (h : trace) (search_term : json)
  (obj_type : string) (count : Z) : trace * status :=
  let names :=
    if String.eqb obj_type "user" then Some ("www", "user")
    else if String.eqb obj_type "item" then Some ("www", "video")
    else None in
  match names with
  | None => ([], Raised TypeError)
  | Some (subdomain, subpath) =>
      let target := "https://" ++ subdomain ++ ".tiktok.com/search/" ++ subpath
                    ++ "?q=" ++ py_str env search_term in
      let out := [Act (Goto target); Act (WaitForContent item_list_selector)] in
      match wait_for_content_or_captcha env (h ++ out)%list
              item_list_selector with
      | Some e => (out, Raised e)
      | None =>
          search_loop fuel h ("api/search/" ++ obj_type) obj_type count
            {| urls := []; amount_yielded := 0; emitted := out |}
      end
  end.

(** [Search.videos] and [Search.users]. *)
Definition videos (fuel : nat) (h : trace) (search_term : json) (count : Z)
  : trace * status :=
  search_type fuel h search_term "item" count.

Definition users (fuel : nat) (h : trace) (search_term : json) (count : Z)
  : trace * status :=
  search_type fuel h search_term "user" count.

End SearchClass.

End Search.

(** ** Attribute access on [User] *)

Module UserAccess.

Section Access.

Context (env : Env).

(** [User.__getattr__] (lines 329-335), called for an attribute [name]
    that is not set on the object: the events, and the updated object
    with the value handed back by [__getattribute__]. *)
Definition getattr (h : trace) (self : User) (name : string)
  : trace * res (User * json) :=
  if String.eqb name "as_dict" then
    let '(out, r) := TikTokUser.info env h self in
    match r with
    | Err e => (out, Err e)
    | Ok data =>
        let self1 := {| username := username self; user_id := user_id self;
                        sec_uid := sec_uid self; as_dict := Some data |} in
        match TikTokUser.extract_from_data env self1 data with
        | (logs, Ok self2) =>
            ((out ++ logs)%list,
             match as_dict self2 with
             | Some value => Ok (self2, value)
             | None => Err AttributeError
             end)
        | (logs, Err e) => ((out ++ logs)%list, Err e)
        end
    end
  else ([], Err AttributeError).

End Access.

End UserAccess.

(** ** [Search.search_type] with its [pull_method] variable *)

Module SearchFull.

Section Full.

Context (env : Env).

(** What the branch of lines 144-170 leaves: the loop goes on with a
    value of [pull_method] and a state, or the generator has ended. *)
Inductive branch_end : Type :=
| Again (pull_method : string) (st : run)
| Finished (result : trace * status).

(** The loop of lines 101-170 with [pull_method] as a variable.  The
    branch taken when [pull_method == "requests"] is the parameter
    [direct], a function of the history, the variable and the state. *)
Fixpoint search_loop (direct : trace -> string -> run -> branch_end)
  (fuel : nat) (h : trace) (path obj_type : string) (count : Z)
  (pull_method : string) (st : run) : trace * status :=
  if amount_yielded st <? count then
    match fuel with
    | O => (emitted st, OutOfFuel)
    | S fuel' =>
        if String.eqb pull_method "browser" then
          let st1 := emit st [Act RequestDelay; Act (GetRequests path)] in
          let search_requests :=
            Search.fresh_requests (urls st1)
              (get_requests env (h ++ emitted st1)%list path) in
          match for_each_request (Search.search_response env obj_type)
                  search_requests st1 with
          | Stop st2 => (emitted st2, Returned)
          | Throw e st2 => (emitted st2, Raised e)
          | Next st2 =>
              let st3 :=
                emit st2 [Act RequestDelay; Act SlightScrollUp;
                          Act RequestDelay; Act (ScrollToBottom (Some 8));
                          Act (WaitNotSkeleton Search.skeleton)] in
              match wait_until_not_skeleton_or_captcha env
                      (h ++ emitted st3)%list Search.skeleton with
              | Some e => (emitted st3, Raised e)
              | None =>
                  search_loop direct fuel' h path obj_type count pull_method st3
              end
          end
        else if String.eqb pull_method "requests" then
          match direct h pull_method (emit st [Act RequestDelay]) with
          | Again pull_method' st' =>
              search_loop direct fuel' h path obj_type count pull_method' st'
          | Finished result => result
          end
        else
          search_loop direct fuel' h path obj_type count pull_method
            (emit st [Act RequestDelay])
    end
  else (emitted st, Returned).

End Full.

End SearchFull.

(** ** Vocabulary of the properties *)

Definition is_act (e : event) : bool :=
  match e with Act _ => true | _ => false end.

(** No collaborator is called: no page is requested, no response read. *)
Definition no_act (t : trace) : Prop := Forall (fun e => is_act e = false) t.

Definition is_scroll (e : event) : bool :=
  match e with Act (ScrollToBottom _) => true | _ => false end.

(** The run has scrolled, that is, it has left the first page. *)
Definition scrolled (t : trace) : bool := existsb is_scroll t.

(** The state a loop body leaves. *)
Definition state_of {S : Type} (c : ctl S) : S :=
  match c with Next s | Stop s | Throw _ s => s end.

(** The run's result when a loop body ends it. *)
Definition finish (c : ctl run) : option (trace * status) :=
  match c with
  | Next _ => None
  | Stop s => Some (emitted s, Returned)
  | Throw e s => Some (emitted s, Raised e)
  end.

(** A search response that is not a captcha denial and whose envelope
    has [has_more == 0] (an absent field counts as 0). *)
Definition is_final (env : Env) (r : Request) : bool :=
  negb (String.eqb (body r) EmptyString) &&
  match json_loads env (body r) with
  | Some (JObj m) =>
      negb (py_eq_str (dict_get_default "type" m JNull) "verify") &&
      py_eq_int (dict_get_default "has_more" m (JInt 0)) 0
  | _ => false
  end.

(** A response whose envelope is a dict, is not a captcha denial and has
    no field named [key]. *)
Definition lacks (env : Env) (key : string) (r : Request) : bool :=
  negb (String.eqb (body r) EmptyString) &&
  match json_loads env (body r) with
  | Some (JObj m) =>
      negb (py_eq_str (dict_get_default "type" m JNull) "verify") &&
      negb (dict_has key m)
  | _ => false
  end.

(** Every item handed out before a match is a user with another name. *)
Definition no_match (name : json) (t : trace) : Prop :=
  forall i, In (Yield i) t ->
            exists v, i = IUser v /\ py_eq (username v) name = false.

(** The requested-count property as the specification words it: a run
    that ends has yielded at least [count] items, unless the source
    signalled the end of the results (the drivers log that at level
    Info) or an error occurred on the first page (before any scroll and
    with at most one favourite-list call). *)
Definition data_calls (t : trace) : nat :=
  List.length (filter (fun e => match e with Act (GetData _ _ _) => true
                                        | _ => false end) t).

Definition is_info (e : event) : bool :=
  match e with Log Info _ => true | _ => false end.

Definition source_exhausted (out : trace) : bool := existsb is_info out.

Definition failed_on_first_page (out : trace) (ending : status) : bool :=
  match ending with
  | Raised _ => negb (scrolled out) && (data_calls out <=? 1)%nat
  | _ => false
  end.

Definition meets_count (count : Z) (result : trace * status) : bool :=
  match snd result with
  | OutOfFuel => true
  | ending =>
      (count <=? yielded (fst result)) || source_exhausted (fst result)
      || failed_on_first_page (fst result) ending
  end.

(** The loop counter equals the number of items handed out. *)
Definition counted (st : run) : Prop :=
  amount_yielded st = yielded (emitted st).

(** A piece of a loop body that only hands out items and logs: it adds
    the events [d], none of them a collaborator call, counts each item
    it hands out once, and never ends the run by [return]. *)
Definition hands_out (st : run) (c : ctl run) (d : trace) : Prop :=
  no_act d /\ emitted (state_of c) = (emitted st ++ d)%list /\
  match c with
  | Next st' => amount_yielded st' = amount_yielded st + yielded d
  | Stop _ => False
  | Throw _ _ => True
  end.

(** What one pass of a loop body over a captured [request] does: it
    reads the response and then only hands out items and logs; when the
    loop goes on, every item was counted once and the response was not
    a [final] one; when it returns, its last act is to log [msg]. *)
Definition pass_spec (final : bool) (msg : string) (request : Request)
  (st : run) (c : ctl run) : Prop :=
  exists d,
    no_act d /\
    emitted (state_of c) = (emitted st ++ Act (ResponseBody request) :: d)%list /\
    match c with
    | Next st' =>
        amount_yielded st' = amount_yielded st + yielded d /\ final = false
    | Stop st' => exists d', d = (d' ++ [Log Info msg])%list
    | Throw _ _ => True
    end.

(** [bad t1 r] singles out responses by what precedes them ([t1]) and
    what they are ([r]).  A trace is quiet when it holds no such
    response. *)
Definition quiet (bad : trace -> Request -> Prop) (t : trace) : Prop :=
  forall t1 r t2, t = (t1 ++ Act (ResponseBody r) :: t2)%list -> ~ bad t1 r.

(** The result of a run is the result of the pass of [step] over [r],
    started in a state that satisfies [J] and had emitted [t1]. *)
Definition ended_by (step : Request -> run -> ctl run) (J : run -> Prop)
  (t1 : trace) (r : Request) (result : trace * status) : Prop :=
  exists st, J st /\ emitted st = t1 /\ finish (step r st) = Some result.

(** A run ends with each [bad] response it reads: nothing is requested
    or read after it, and the run's result is that of the pass over the
    response. *)
Definition ends_there (bad : trace -> Request -> Prop)
  (ended : trace -> Request -> trace * status -> Prop)
  (result : trace * status) : Prop :=
  forall t1 r t2,
    fst result = (t1 ++ Act (ResponseBody r) :: t2)%list ->
    bad t1 r ->
    no_act t2 /\ ended t1 r result.

Definition no_response (t : trace) : Prop :=
  forall r, ~ In (Act (ResponseBody r)) t.

(** The responses that end a search: the final ones, wherever they are. *)
Definition search_bad (env : Env) (t1 : trace) (r : Request) : Prop :=
  is_final env r = true.

(** The responses that end [User.videos] for lack of a has-more field:
    those read after the first scroll whose envelope has no "hasMore". *)
Definition videos_bad (env : Env) (t1 : trace) (r : Request) : Prop :=
  scrolled t1 = true /\ lacks env "hasMore" r = true.

(** In [User.videos], [request_num] is 1 exactly until the first scroll. *)
Definition on_page (request_num : Z) (st : run) : Prop :=
  1 <= request_num /\ (request_num = 1 -> scrolled (emitted st) = false).

Definition always (st : run) : Prop := True.

(** A loop body returned by logging [msg]. *)
Definition stopped_with (msg : string) (c : ctl run) : Prop :=
  match c with
  | Stop st' => exists out', emitted st' = (out' ++ [Log Info msg])%list
  | _ => True
  end.

(** A run of [User.videos] ended with the pass over [r] on a page after
    the first. *)
Definition videos_ended (step : Z -> Request -> run -> ctl run)
  (t1 : trace) (r : Request) (result : trace * status) : Prop :=
  exists n st, 1 < n /\ emitted st = t1 /\ finish (step n r st) = Some result.

(** *** Vocabulary of the further properties *)

(** The responses a trace reads, in order, and their addresses. *)
Fixpoint responses_of (t : trace) : list Request :=
  match t with
  | [] => []
  | Act (ResponseBody r) :: t' => r :: responses_of t'
  | _ :: t' => responses_of t'
  end.

Definition read_urls (t : trace) : list string := map url (responses_of t).

Definition known (address : string) (addresses : list string) : bool :=
  existsb (String.eqb address) addresses.

(** Reading a trace cycle by cycle: [frozen] holds the addresses read
    before the last call of [get_requests], [seen] all addresses read.
    [cycle_state] gives the two lists after a trace, [cycles_fresh]
    tells whether every response read was unknown when its cycle
    began. *)
Fixpoint cycle_state (frozen seen : list string) (t : trace)
  : list string * list string :=
  match t with
  | [] => (frozen, seen)
  | Act (GetRequests _) :: t' => cycle_state seen seen t'
  | Act (ResponseBody r) :: t' => cycle_state frozen (seen ++ [url r])%list t'
  | _ :: t' => cycle_state frozen seen t'
  end.

Fixpoint cycles_fresh (frozen seen : list string) (t : trace) : bool :=
  match t with
  | [] => true
  | Act (GetRequests _) :: t' => cycles_fresh seen seen t'
  | Act (ResponseBody r) :: t' =>
      negb (known (url r) frozen)
      && cycles_fresh frozen (seen ++ [url r])%list t'
  | _ :: t' => cycles_fresh frozen seen t'
  end.

(** Every call of [get_requests] comes right after a rate-limiter
    delay.  [after_delay] tells whether the previous event was one. *)
Fixpoint paced (after_delay : bool) (t : trace) : bool :=
  match t with
  | [] => true
  | Act RequestDelay :: t' => paced true t'
  | Act (GetRequests _) :: t' => after_delay && paced false t'
  | _ :: t' => paced false t'
  end.

Definition is_get_requests (e : event) : bool :=
  match e with Act (GetRequests _) => true | _ => false end.

(** The videos a search for items hands out from a response it reads. *)
Definition response_videos (env : Env) (r : Request) : list entity :=
  if String.eqb (body r) EmptyString then []
  else
    match json_loads env (body r) with
    | Some (JObj m) =>
        if py_eq_str (dict_get_default "type" m JNull) "verify" then []
        else
          match py_iter (dict_get_default "item_list" m (JArr [])) with
          | Ok rs => map video rs
          | Err _ => []
          end
    | _ => []
    end.

(** Two states of a loop that differ at most in the list of URLs. *)
Definition same_but_urls (a b : run) : Prop :=
  amount_yielded a = amount_yielded b /\ emitted a = emitted b.

Definition same_ctl (a b : ctl run) : Prop :=
  match a, b with
  | Next s, Next s' => same_but_urls s s'
  | Stop s, Stop s' => same_but_urls s s'
  | Throw e s, Throw e' s' => e = e' /\ same_but_urls s s'
  | _, _ => False
  end.



(** ** Scripted environments

    Concrete sessions used to run the model: the decoder is a table from
    body texts to values, the captured traffic and the waiter's outcome
    are chosen by the number of scrolls performed so far, the answers of
    the favourite-list endpoint by the number of calls made so far. *)

Module Script.

Definition dq : string := String (ascii_of_nat 34) EmptyString.

(** A JSON string token. *)
Definition tok (s : string) : string := dq ++ s ++ dq.

Fixpoint lookup {A : Type} (k : string) (table : list (string * A)) : option A :=
  match table with
  | [] => None
  | (k', v) :: table' => if String.eqb k k' then Some v else lookup k table'
  end.

Fixpoint scrolls (h : trace) : nat :=
  match h with
  | [] => O
  | Act (ScrollToBottom _) :: h' => S (scrolls h')
  | _ :: h' => scrolls h'
  end.

Definition str (x : json) : string :=
  match x with
  | JStr s => s
  | _ => "None"
  end.

Definition session (table : list (string * json))
  (traffic : list (list Request)) (waits : list (option exn))
  (profile : res string) (favourites : list (res json))
  (found : trace * status) : Env :=
  {| json_loads := fun text => lookup text table;
     extract_tag_contents := fun text => Ok text;
     py_str := str;
     quote := fun s => s;
     get_requests := fun h _ => nth (scrolls h) traffic [];
     wait_for_content_or_captcha := fun _ _ => None;
     wait_until_not_skeleton_or_captcha :=
       fun h _ => nth (scrolls h) waits None;
     requests_get := fun _ _ => profile;
     get_data := fun h _ _ _ =>
       nth (Nat.pred (data_calls h)) favourites (Err EmptyResponseException);
     search_users := fun _ _ => found |}.

End Script.


(** ** Scenarios *)

Module Scenario.

Import Script.

Definition alice : User :=
  {| username := JStr "alice"; user_id := JNull; sec_uid := JNull;
     as_dict := None |}.

Definition alice_known : User :=
  {| username := JStr "alice"; user_id := JStr "1"; sec_uid := JStr "MS4";
     as_dict := None |}.

(** The users-map entry and a raw video of the first page. *)
Definition alice_entry : json :=
  JObj [("signature", JStr "hi"); ("verified", JBool false);
        ("secret", JBool false); ("ftc", JBool false); ("relation", JInt 0);
        ("openFavorite", JBool false); ("commentSetting", JInt 0);
        ("duetSetting", JInt 0); ("stitchSetting", JInt 0);
        ("privateAccount", JBool false)].

Definition raw_video : list (string * json) :=
  [("id", JStr "7"); ("createTime", JStr "1690000000");
   ("author", JStr "alice"); ("authorId", JStr "1");
   ("nickname", JStr "Alice"); ("avatarThumb", JStr "a.jpg");
   ("authorSecId", JStr "MS4")].

Definition users_map : json := JObj [("alice", alice_entry)].

Definition user_module : json := JObj [("users", users_map)].

Definition first_page : json :=
  JObj [("ItemModule", JObj [("7", JObj raw_video)]);
        ("UserModule", user_module);
        ("ItemList", JObj [("user-post", JObj [("hasMore", JBool true)])])].

(** Bodies of item-list responses and what they decode to. *)
Definition more_text (id : string) : string :=
  "{" ++ tok "itemList" ++ ": [" ++ id ++ "], " ++ tok "hasMore" ++ ": true}".

Definition more_json (id : Z) : json :=
  JObj [("itemList", JArr [JInt id]); ("hasMore", JBool true)].

Definition last_text : string :=
  "{" ++ tok "itemList" ++ ": [9], " ++ tok "hasMore" ++ ": false}".

Definition last_json : json :=
  JObj [("itemList", JArr [JInt 9]); ("hasMore", JBool false)].

Definition bare_text : string := "{" ++ tok "itemList" ++ ": [5]}".

Definition bare_json : json := JObj [("itemList", JArr [JInt 5])].

Definition verify_text : string :=
  "{" ++ tok "type" ++ ": " ++ tok "verify" ++ "}".

Definition verify_json : json := JObj [("type", JStr "verify")].

(** Bodies of search responses. *)
Definition found_text (id more : string) : string :=
  "{" ++ tok "item_list" ++ ": [" ++ id ++ "], " ++ tok "has_more" ++ ": "
  ++ more ++ "}".

Definition found_json (id more : Z) : json :=
  JObj [("item_list", JArr [JInt id]); ("has_more", JInt more)].

Definition person (uid name : string) : json :=
  JObj [("user_info",
         JObj [("uid", JStr uid); ("sec_uid", JStr ("MS4" ++ uid));
               ("unique_id", JStr name)])].

Definition people_json : json :=
  JObj [("user_list", JArr [person "2" "alice_fan"; person "1" "alice";
                             person "3" "alicia"]);
        ("has_more", JInt 0)].

Definition table : list (string * json) :=
  [("<html>first page</html>", first_page);
   (more_text "2", more_json 2);
   (more_text "3", more_json 3);
   (last_text, last_json);
   (bare_text, bare_json);
   (verify_text, verify_json);
   (found_text "1" "1", found_json 1 1);
   (found_text "2" "0", found_json 2 0);
   (found_text "3" "1", found_json 3 1);
   ("people", people_json);
   ("<html>profile</html>",
    JObj [("props",
           JObj [("pageProps",
                  JObj [("statusCode", JInt 0);
                        ("userInfo",
                         JObj [("user",
                                JObj [("id", JStr "1");
                                      ("secUid", JStr "MS41");
                                      ("uniqueId", JStr "alice")])])])])]);
   ("<html>not found</html>",
    JObj [("props", JObj [("pageProps", JObj [("statusCode", JInt 404)])])]);
   ("{}", JObj [])].

Definition profile_page : Request :=
  {| url := "https://www.tiktok.com/@alice";
     body := "<html>first page</html>" |}.

Definition item_list (cursor text : string) : Request :=
  {| url := "https://www.tiktok.com/api/post/item_list/?cursor=" ++ cursor;
     body := text |}.

Definition search_page (offset text : string) : Request :=
  {| url := "https://www.tiktok.com/api/search/item/full/?offset=" ++ offset;
     body := text |}.

(** The traffic buffer keeps what it captured: the request of the second
    page is still there when the third page is loaded. *)
Definition kept_traffic : Env :=
  session table
    [[profile_page];
     [item_list "1" (more_text "2")];
     [item_list "1" (more_text "2"); item_list "2" last_text]]
    [] (Err TimeoutException) [] ([], Returned).

(** A captcha is shown after the first scroll. *)
Definition captcha_later : Env :=
  session table [[profile_page]] [None; Some CaptchaException]
    (Err TimeoutException) [] ([], Returned).

(** The second page holds a body that is not JSON, then a good one. *)
Definition broken_body : Env :=
  session table
    [[profile_page];
     [item_list "1" "<html>error</html>"; item_list "2" last_text]]
    [] (Err TimeoutException) [] ([], Returned).

(** The second page ends with an envelope without "hasMore"; a third
    response is in the same batch. *)
Definition bare_envelope : Env :=
  session table
    [[profile_page];
     [item_list "1" (more_text "2"); item_list "2" bare_text;
      item_list "3" (more_text "3")]]
    [] (Err TimeoutException) [] ([], Returned).

(** A search: the second page says [has_more == 0]. *)
Definition search_pages : Env :=
  session table
    [[search_page "0" (found_text "1" "1")];
     [search_page "0" (found_text "1" "1");
      search_page "12" (found_text "2" "0");
      search_page "24" (found_text "3" "1")]]
    [] (Err TimeoutException) [] ([], Returned).

(** The same search with a body that is not JSON in between. *)
Definition search_broken : Env :=
  session table
    [[search_page "0" "<html>error</html>";
      search_page "12" (found_text "2" "0")]]
    [] (Err TimeoutException) [] ([], Returned).

(** A search for users by name. *)
Definition people_search : Env :=
  session table
    [[{| url := "https://www.tiktok.com/api/search/user/full/?offset=0";
         body := "people" |}]]
    [] (Err TimeoutException) [] ([], Returned).

(** The profile page exists; the search by name is the one above. *)
Definition resolving : Env :=
  session table [] [] (Ok "<html>profile</html>") []
    (Search.users people_search 4 [] (JStr "alice") 28).

Definition missing_profile : Env :=
  session table [] [] (Ok "<html>not found</html>") [] ([], Returned).

(** The favourite list answers without "itemList". *)
Definition private_likes : Env :=
  session table [] [] (Err TimeoutException)
    [Ok (JObj [("statusCode", JInt 10000)])] ([], Returned).

(** The favourite list has one video per page and more to come. *)
Definition public_likes : Env :=
  session table [] [] (Err TimeoutException)
    [Ok (JObj [("itemList", JArr [JInt 1]); ("hasMore", JBool true);
               ("cursor", JInt 1)]);
     Ok (JObj [("itemList", JArr [JInt 2]); ("hasMore", JBool true);
               ("cursor", JInt 2)])]
    ([], Returned).

(** A search whose first envelope has no "has_more". *)
Definition search_bare : Env :=
  session table
    [[search_page "0" "{}"; search_page "12" (found_text "2" "0")]]
    [] (Err TimeoutException) [] ([], Returned).

Definition carol : User :=
  {| username := JStr "carol"; user_id := JNull; sec_uid := JNull;
     as_dict := None |}.

Definition alice_found : User :=
  {| username := JStr "alice"; user_id := JStr "1"; sec_uid := JStr "MS41";
     as_dict := Some (person "1" "alice") |}.

(** The runs the properties are tried on. *)
Definition kept_run : trace * status :=
  TikTokUser.videos kept_traffic 10 [] alice 10.

Definition captcha_run : trace * status :=
  TikTokUser.videos captcha_later 10 [] alice 5.

Definition broken_run : trace * status :=
  TikTokUser.videos broken_body 10 [] alice 5.

Definition bare_run : trace * status :=
  TikTokUser.videos bare_envelope 10 [] alice 5.

Definition search_run : trace * status :=
  Search.search_type search_pages 10 [] (JStr "cats") "item" 10.

Definition search_broken_run : trace * status :=
  Search.search_type search_broken 10 [] (JStr "cats") "item" 10.

Definition search_bare_run : trace * status :=
  Search.search_type search_bare 10 [] (JStr "cats") "item" 10.

Definition people_run : trace * status :=
  Search.users people_search 4 [] (JStr "alice") 28.

(** Number of times a response of the given address is read. *)
Definition reads (address : string) (t : trace) : nat :=
  List.length
    (filter (fun e => match e with
                      | Act (ResponseBody r) => String.eqb (url r) address
                      | _ => false
                      end) t).

End Scenario.

(** ** More scenarios *)

Module Cases.

Import Script Scenario.

(** The search by name is stopped by a captcha before it finds anyone. *)
Definition search_fails : Env :=
  session table [] [] (Ok "<html>profile</html>") []
    ([Act RequestDelay; Act (GetRequests "api/search/user")],
     Raised CaptchaException).

(** A user in the flat shape. *)
Definition flat_alice : list (string * json) :=
  [("id", JStr "1"); ("secUid", JStr "MS41"); ("uniqueId", JStr "alice")].

(** The same captured request twice in one cycle. *)
Definition twice : list Request :=
  [search_page "0" (found_text "1" "1"); search_page "0" (found_text "1" "1")].

Definition liked_run : trace * status :=
  TikTokUser.liked public_likes 2 [] alice_known 5 (JInt 0).

End Cases.

(** * Properties *)

Local Open Scope list_scope.

(** ** Dictionaries and sequences *)

Lemma dict_get_set (k k' : string) (v : json) (m : list (string * json)) :
  dict_get k (dict_set k' v m) = if String.eqb k k' then Some v else dict_get k m.
Proof.
  induction m as [|[k0 v0] m IH]; simpl.
  - destruct (String.eqb k k'); reflexivity.
  - destruct (String.eqb_spec k' k0) as [->|Hne]; simpl.
    + destruct (String.eqb k k0); reflexivity.
    + destruct (String.eqb_spec k k0) as [->|Hne'].
      * destruct (String.eqb_spec k0 k') as [Heq|_]; [congruence|reflexivity].
      * exact IH.
Qed.

Lemma item_obj (m : list (string * json)) (k : string) :
  item (JObj m) k =
  match dict_get k m with Some v => Ok v | None => Err KeyError end.
Proof. reflexivity. Qed.

Lemma item_obj_some (m : list (string * json)) (k : string) (v : json) :
  dict_get k m = Some v -> item (JObj m) k = Ok v.
Proof. intros H; rewrite item_obj, H; reflexivity. Qed.

Lemma chars_length (s : string) : List.length (chars s) = String.length s.
Proof. induction s; simpl; congruence. Qed.

(** [len] agrees with the number of elements a loop visits. *)
Lemma py_len_iter (x : json) (n : Z) (vs : list json) :
  py_len x = Ok n -> py_iter x = Ok vs -> n = Z.of_nat (List.length vs).
Proof.
  destruct x; simpl; try discriminate; intros Hn Hv;
    injection Hn as <-; injection Hv as <-.
  - now rewrite chars_length.
  - reflexivity.
  - now rewrite length_map.
Qed.

Lemma py_iter_len (x : json) (vs : list json) :
  py_iter x = Ok vs -> py_len x = Ok (Z.of_nat (List.length vs)).
Proof.
  destruct x; simpl; try discriminate; intros Hv; injection Hv as <-.
  - now rewrite chars_length.
  - reflexivity.
  - now rewrite length_map.
Qed.

(** ** Entity normalisation *)

(** C7.  A first-page raw video whose [createTime] is the string
    "1690000000", whose [author] is the unique name "alice" and whose
    [authorId] is "1", together with a users-map entry keyed "alice",
    is normalised to a video whose [createTime] is the integer
    1690000000 and whose [author] is an object with [id] "1", [uniqueId]
    "alice" and the signature, verified, secret, ftc, relation,
    openFavorite, commentSetting, duetSetting, stitchSetting and
    privateAccount fields of the users-map entry. *)
Theorem normalize_video_alice :
  forall (page module users entry : json) (m : list (string * json))
         (nickname avatarThumb authorSecId signature verified secret ftc
          relation openFavorite commentSetting duetSetting stitchSetting
          privateAccount : json),
    dict_get "createTime" m = Some (JStr "1690000000") ->
    dict_get "author" m = Some (JStr "alice") ->
    dict_get "authorId" m = Some (JStr "1") ->
    dict_get "nickname" m = Some nickname ->
    dict_get "avatarThumb" m = Some avatarThumb ->
    dict_get "authorSecId" m = Some authorSecId ->
    item page "UserModule" = Ok module ->
    item module "users" = Ok users ->
    item users "alice" = Ok entry ->
    item entry "signature" = Ok signature ->
    item entry "verified" = Ok verified ->
    item entry "secret" = Ok secret ->
    item entry "ftc" = Ok ftc ->
    item entry "relation" = Ok relation ->
    item entry "openFavorite" = Ok openFavorite ->
    item entry "commentSetting" = Ok commentSetting ->
    item entry "duetSetting" = Ok duetSetting ->
    item entry "stitchSetting" = Ok stitchSetting ->
    item entry "privateAccount" = Ok privateAccount ->
    exists video' : json,
      TikTokUser.normalize_video page (JObj m) = Ok video' /\
      item video' "createTime" = Ok (JInt 1690000000) /\
      item video' "author" =
        Ok (JObj [("id", JStr "1"); ("uniqueId", JStr "alice");
                  ("nickname", nickname); ("avatarThumb", avatarThumb);
                  ("signature", signature); ("verified", verified);
                  ("secUid", authorSecId); ("secret", secret); ("ftc", ftc);
                  ("relation", relation); ("openFavorite", openFavorite);
                  ("commentSetting", commentSetting);
                  ("duetSetting", duetSetting);
                  ("stitchSetting", stitchSetting);
                  ("privateAccount", privateAccount)]).
Proof.
  intros page module users entry m nickname avatarThumb authorSecId signature
    verified secret ftc relation openFavorite commentSetting duetSetting
    stitchSetting privateAccount Hct Hau Hid Hnick Hav Hsec Hmod Husers Hentry
    Hsig Hver Hsecret Hftc Hrel Hfav Hcom Hduet Hstitch Hpriv.
  assert (Hfield : forall f v, item entry f = Ok v ->
            TikTokUser.users_field page (JStr "alice") f = Ok v).
  { intros f v Hf. unfold TikTokUser.users_field.
    rewrite Hmod; simpl. rewrite Husers; simpl.
    change (py_getitem users (JStr "alice")) with (item users "alice").
    rewrite Hentry; simpl. exact Hf. }
  eexists. split.
  - unfold TikTokUser.normalize_video.
    cbn [bind py_setitem item py_getitem].
    repeat (first
      [ rewrite dict_get_set; simpl String.eqb
      | progress change (py_int (JStr "1690000000")) with (Ok (A := Z) 1690000000)
      | match goal with
        | H : dict_get ?k m = Some _ |- context [dict_get ?k m] => rewrite H
        end
      | match goal with
        | |- context [TikTokUser.users_field page (JStr "alice") ?f] =>
            erewrite (Hfield f) by eassumption
        end ];
      cbn [bind py_setitem item py_getitem]).
    reflexivity.
  - rewrite !item_obj, !dict_get_set; simpl String.eqb. split; reflexivity.
Qed.

(** ** Lazy attribute resolution *)

(** C5.  When the profile page's bootstrap data has
    [props.pageProps.statusCode == 404], [User.info_full] raises
    [NotFoundException] with a message that contains the requested
    username; with any other status code it returns (the result of
    indexing) [props.pageProps.userInfo]. *)
Theorem info_full_status_code :
  forall (env : Env) (h : trace) (self : User) (name text data : string)
         (user props user_props code : json),
    username self = JStr name ->
    name <> EmptyString ->
    requests_get env
      (h ++ [Act (HttpGet (TikTokUser.profile_url env name))])
      (TikTokUser.profile_url env name) = Ok text ->
    extract_tag_contents env text = Ok data ->
    json_loads env data = Some user ->
    item user "props" = Ok props ->
    item props "pageProps" = Ok user_props ->
    item user_props "statusCode" = Ok code ->
    (py_eq_int code 404 = true ->
     snd (TikTokUser.info_full env h self) =
       Err (NotFoundException
              ("TikTok user with username " ++ name ++ " does not exist")%string)) /\
    (py_eq_int code 404 = false ->
     snd (TikTokUser.info_full env h self) = item user_props "userInfo").
Proof.
  intros env h self name text data user props user_props code
    Hname Hne Hget Htag Hloads Hprops Hpage Hcode.
  unfold TikTokUser.info_full. rewrite Hname.
  assert (Htruthy : truthy (JStr name) = true).
  { simpl. destruct (String.eqb_spec name EmptyString); [contradiction|reflexivity]. }
  rewrite Htruthy. cbn [negb snd].
  rewrite Hget. cbn [bind]. rewrite Htag. cbn [bind]. rewrite Hloads.
  rewrite Hprops. cbn [bind]. rewrite Hpage. cbn [bind].
  rewrite Hcode. cbn [bind].
  split; intros ->; reflexivity.
Qed.

Lemma scan_users_no_items (name : json) (evs : trace) :
  items_of (fst (TikTokUser.scan_users name evs)) = [].
Proof.
  induction evs as [|e evs IH]; simpl; [reflexivity|].
  destruct e as [[u|d]|l msg|a]; simpl.
  - destruct (py_eq (username u) name); [reflexivity|exact IH].
  - reflexivity.
  - destruct (TikTokUser.scan_users name evs); simpl in *; exact IH.
  - destruct (TikTokUser.scan_users name evs); simpl in *; exact IH.
Qed.

Lemma items_of_app (t t' : trace) :
  items_of (t ++ t') = (items_of t ++ items_of t')%list.
Proof.
  induction t as [|e t IH]; simpl; [reflexivity|].
  destruct e; simpl; rewrite IH; reflexivity.
Qed.

Lemma info_full_no_items (env : Env) (h : trace) (self : User) :
  items_of (fst (TikTokUser.info_full env h self)) = [].
Proof.
  unfold TikTokUser.info_full.
  destruct (negb (truthy (username self))); [reflexivity|].
  destruct (username self); reflexivity.
Qed.

(** The search pulled by [find_attributes] hands its items to the loop,
    not to the caller. *)
Lemma find_attributes_no_items (env : Env) (h : trace) (self : User) :
  items_of (fst (TikTokUser.find_attributes env h self)) = [].
Proof.
  unfold TikTokUser.find_attributes.
  destruct (search_users env h (username self)) as [evs ending].
  pose proof (scan_users_no_items (username self) evs) as Hscan.
  destruct (TikTokUser.scan_users (username self) evs) as [consumed [u| |e]];
    simpl in Hscan; try exact Hscan.
  destruct ending as [[]|e|]; try exact Hscan.
  unfold TikTokUser.info.
  pose proof (info_full_no_items env (h ++ consumed) self) as Hinfo.
  destruct (TikTokUser.info_full env (h ++ consumed) self) as [out r].
  simpl in *. rewrite items_of_app, Hscan, Hinfo. reflexivity.
Qed.

Lemma resolve_no_items (env : Env) (h : trace) (self : User) :
  items_of (fst (TikTokUser.resolve env h self)) = [].
Proof.
  unfold TikTokUser.resolve.
  destruct (is_none (user_id self) && is_none (sec_uid self));
    [apply find_attributes_no_items | reflexivity].
Qed.

(** C9.  When the first response of [User.liked] is a dict without the
    key "itemList", the sequence is empty: the run logs the privacy
    diagnostic and returns, without raising. *)
Theorem liked_private_first_page :
  forall (env : Env) (fuel : nat) (h out0 : trace) (self self' : User)
         (count : Z) (cursor : json) (m : list (string * json)),
    TikTokUser.resolve env h self = (out0, Done self') ->
    0 < count ->
    get_data env
      (h ++ out0 ++ [Act (GetData (user_id self') (sec_uid self') cursor)])%list
      (user_id self') (sec_uid self') cursor = Ok (JObj m) ->
    dict_get "itemList" m = None ->
    TikTokUser.liked env (S fuel) h self count cursor =
      ((out0 ++ [Act (GetData (user_id self') (sec_uid self') cursor);
                 Log Error TikTokUser.likes_private])%list, Returned) /\
    items_of (fst (TikTokUser.liked env (S fuel) h self count cursor)) = [].
Proof.
  intros env fuel h out0 self self' count cursor m Hres Hcount Hdata Hlist.
  assert (Hrun : TikTokUser.liked env (S fuel) h self count cursor =
    ((out0 ++ [Act (GetData (user_id self') (sec_uid self') cursor);
               Log Error TikTokUser.likes_private])%list, Returned)).
  { unfold TikTokUser.liked. rewrite Hres. cbn [TikTokUser.liked_loop].
    replace (0 <? count) with true by (symmetry; apply Z.ltb_lt; exact Hcount).
    rewrite Hdata. unfold dict_has. rewrite Hlist. cbn [negb].
    rewrite <- app_assoc. reflexivity. }
  split; [exact Hrun|].
  rewrite Hrun. cbn [fst]. rewrite items_of_app.
  pose proof (resolve_no_items env h self) as Hno. rewrite Hres in Hno.
  cbn [fst] in Hno. rewrite Hno. reflexivity.
Qed.

Lemma scan_users_match (name : json) (pre post : trace) (u : User) :
  no_match name pre ->
  py_eq (username u) name = true ->
  TikTokUser.scan_users name (pre ++ Yield (IUser u) :: post) =
    (without_items pre, TikTokUser.Match u).
Proof.
  intros Hpre Hu. induction pre as [|e pre IH]; simpl.
  - rewrite Hu. reflexivity.
  - assert (Hpre' : no_match name pre).
    { intros i Hi. apply Hpre. right. exact Hi. }
    specialize (IH Hpre').
    destruct e as [i|l msg|a].
    + destruct (Hpre i (or_introl eq_refl)) as [v [-> Hv]].
      rewrite Hv. exact IH.
    + rewrite IH. reflexivity.
    + rewrite IH. reflexivity.
Qed.

Lemma scan_users_exhausted (name : json) (evs : trace) :
  no_match name evs ->
  TikTokUser.scan_users name evs = (without_items evs, TikTokUser.Exhausted).
Proof.
  intros Hevs. induction evs as [|e evs IH]; simpl; [reflexivity|].
  assert (Hevs' : no_match name evs).
  { intros i Hi. apply Hevs. right. exact Hi. }
  specialize (IH Hevs').
  destruct e as [i|l msg|a].
  - destruct (Hevs i (or_introl eq_refl)) as [v [-> Hv]].
    rewrite Hv. exact IH.
  - rewrite IH. reflexivity.
  - rewrite IH. reflexivity.
Qed.

(** C6.  [User.__find_attributes] first consumes the search-by-username
    sequence, comparing each found user's name with its own by
    equality.  At the first exact match it takes the identifiers from
    that user and stops: it has only performed what the search did
    before handing out the match, and no profile-info fetch.  Only when
    the sequence ends without an exact match does it fetch the full
    profile info, after everything the search did. *)
Theorem find_attributes_order :
  forall (env : Env) (h evs : trace) (ending : status) (self : User),
    search_users env h (username self) = (evs, ending) ->
    (forall (pre post : trace) (u : User),
        evs = pre ++ Yield (IUser u) :: post ->
        no_match (username self) pre ->
        py_eq (username u) (username self) = true ->
        TikTokUser.find_attributes env h self =
          (without_items pre,
           Done (TikTokUser.update_id_sec_uid_username self
                   (user_id u) (sec_uid u) (username u)))) /\
    (no_match (username self) evs ->
     ending = Returned ->
     fst (TikTokUser.find_attributes env h self) =
       without_items evs
       ++ fst (TikTokUser.info env (h ++ without_items evs) self) /\
     forall user_object id sec unique : json,
       snd (TikTokUser.info env (h ++ without_items evs) self) = Ok user_object ->
       item user_object "id" = Ok id ->
       item user_object "secUid" = Ok sec ->
       item user_object "uniqueId" = Ok unique ->
       snd (TikTokUser.find_attributes env h self) =
         Done (TikTokUser.update_id_sec_uid_username self id sec unique)).
Proof.
  intros env h evs ending self Hsearch. split.
  - intros pre post u -> Hpre Hu.
    unfold TikTokUser.find_attributes. rewrite Hsearch.
    rewrite (scan_users_match _ _ _ _ Hpre Hu). reflexivity.
  - intros Hevs ->.
    unfold TikTokUser.find_attributes. rewrite Hsearch.
    rewrite (scan_users_exhausted _ _ Hevs). cbn [Returned].
    destruct (TikTokUser.info env (h ++ without_items evs) self) as [out r].
    cbn [fst snd]. split; [reflexivity|].
    intros user_object id sec unique -> Hid Hsec Huniq.
    cbn [bind]. rewrite Hid, Hsec, Huniq. reflexivity.
Qed.

(** ** Captcha-denied responses *)

(** C3.  A captured response whose decoded envelope has
    [type == 'verify'] is skipped by [Search.search_type] and, on the
    pages after the first (where envelopes are decoded), by
    [User.videos]: nothing is yielded from it, the count is unchanged,
    whatever its has-more field says, and the loop goes on with the next
    captured request. *)
Theorem verify_response_skipped :
  forall (env : Env) (request : Request) (rest : list Request) (st : run)
         (m : list (string * json)),
    body request <> EmptyString ->
    json_loads env (body request) = Some (JObj m) ->
    dict_get "type" m = Some (JStr "verify") ->
    let st1 := {| urls := urls st ++ [url request];
                  amount_yielded := amount_yielded st;
                  emitted := emitted st ++ [Act (ResponseBody request)] |} in
    (forall obj_type : string,
        Search.search_response env obj_type request st = Next st1 /\
        for_each_request (Search.search_response env obj_type)
          (request :: rest) st =
        for_each_request (Search.search_response env obj_type) rest st1) /\
    (forall request_num : Z,
        1 < request_num ->
        TikTokUser.videos_response env request_num request st = Next st1 /\
        for_each_request (TikTokUser.videos_response env request_num)
          (request :: rest) st =
        for_each_request (TikTokUser.videos_response env request_num) rest st1).
Proof.
  intros env request rest st m Hbody Hloads Htype st1.
  assert (Hget : get_response_body request = Ok (body request)).
  { unfold get_response_body.
    destruct (String.eqb_spec (body request) EmptyString); [contradiction|reflexivity]. }
  assert (Hsearch : forall obj_type,
             Search.search_response env obj_type request st = Next st1).
  { intros obj_type. unfold Search.search_response.
    rewrite Hget, Hloads. unfold dict_get_default. rewrite Htype.
    reflexivity. }
  assert (Hvideos : forall request_num, 1 < request_num ->
             TikTokUser.videos_response env request_num request st = Next st1).
  { intros request_num Hnum. unfold TikTokUser.videos_response.
    rewrite Hget. unfold TikTokUser.decode.
    replace (request_num =? 1) with false by (symmetry; apply Z.eqb_neq; lia).
    replace (request_num >? 1) with true by (symmetry; apply Z.gtb_lt; lia).
    rewrite Hloads. unfold dict_get_default. rewrite Htype. reflexivity. }
  split.
  - intros obj_type. split; [apply Hsearch|].
    cbn [for_each_request]. rewrite Hsearch. reflexivity.
  - intros request_num Hnum. split; [apply Hvideos; exact Hnum|].
    cbn [for_each_request]. rewrite (Hvideos _ Hnum). reflexivity.
Qed.

(** ** Loops over captured requests *)

(** Invariant rule for the loop over captured requests: a property kept
    by every pass that goes on holds when the loop goes on; whatever
    every ending pass establishes holds when the loop ends the run. *)
Lemma for_each_request_rule (step : Request -> run -> ctl run)
  (P : run -> Prop) (Q : ctl run -> Prop) :
  (forall r st, P st ->
     match step r st with Next st' => P st' | c => Q c end) ->
  forall rs st, P st ->
    match for_each_request step rs st with Next st' => P st' | c => Q c end.
Proof.
  intros Hstep rs. induction rs as [|r rs IH]; intros st HP; simpl.
  - exact HP.
  - specialize (Hstep r st HP).
    destruct (step r st) as [st'|st'|e st']; [apply IH|..]; exact Hstep.
Qed.

Lemma yielded_app (t t' : trace) : yielded (t ++ t') = yielded t + yielded t'.
Proof.
  induction t as [|e t IH]; [reflexivity|].
  destruct e; cbn [yielded app]; rewrite IH; lia.
Qed.

Lemma yielded_map_yield (f : json -> entity) (vs : list json) :
  yielded (map (fun v => Yield (f v)) vs) = Z.of_nat (List.length vs).
Proof.
  induction vs as [|v vs IH]; [reflexivity|].
  cbn [map yielded List.length]. rewrite IH. lia.
Qed.

Lemma no_act_yielded_map (f : json -> entity) (vs : list json) :
  no_act (map (fun v => Yield (f v)) vs).
Proof. apply Forall_forall. intros e He. apply in_map_iff in He.
  destruct He as [v [<- _]]. reflexivity. Qed.

(** *** The constructor of [User] only logs *)

Lemma extract_from_data_logs (env : Env) (self : User) (data : json) :
  yielded (fst (TikTokUser.extract_from_data env self data)) = 0 /\
  no_act (fst (TikTokUser.extract_from_data env self data)).
Proof.
  unfold TikTokUser.extract_from_data.
  destruct data; try (split; [reflexivity|constructor]).
  match goal with |- context [match ?x with Ok _ => _ | Err _ => _ end] =>
    destruct x as [u|e] end; [|split; [reflexivity|constructor]].
  destruct (is_none (username u) || is_none (user_id u) || is_none (sec_uid u)).
  - split; [reflexivity|]. repeat constructor.
  - split; [reflexivity|constructor].
Qed.

Lemma User_of_data_logs (env : Env) (data : json) :
  yielded (fst (TikTokUser.User_of_data env data)) = 0 /\
  no_act (fst (TikTokUser.User_of_data env data)).
Proof.
  unfold TikTokUser.User_of_data, TikTokUser.User_init.
  destruct (is_none data); [split; [reflexivity|constructor]|].
  apply extract_from_data_logs.
Qed.

Lemma no_act_app (t t' : trace) : no_act t -> no_act t' -> no_act (t ++ t').
Proof. intros H H'. apply Forall_app. split; assumption. Qed.

(** *** [Search.search_type]: one captured response *)

Lemma hands_out_nil (st : run) : hands_out st (Next st) [].
Proof.
  split; [constructor|split]; cbn; [now rewrite app_nil_r|lia].
Qed.

Lemma hands_out_throw (st : run) (e : exn) : hands_out st (Throw e st) [].
Proof.
  split; [constructor|split]; cbn; [now rewrite app_nil_r|exact I].
Qed.

(** Prefixing a piece that hands out items with [n] more items. *)
Lemma hands_out_cons (st st1 : run) (c : ctl run) (d0 d : trace) :
  no_act d0 ->
  emitted st1 = emitted st ++ d0 ->
  amount_yielded st1 = amount_yielded st + yielded d0 ->
  hands_out st1 c d ->
  hands_out st c (d0 ++ d).
Proof.
  intros H0 Hem Ham [Hd [Hem' Hc]].
  split; [apply no_act_app; assumption|split].
  - rewrite Hem', Hem, app_assoc. reflexivity.
  - destruct c; [|exact Hc|exact I].
    rewrite Hc, Ham, yielded_app. lia.
Qed.

Lemma yield_users_hands_out (env : Env) (rs : list json) (st : run) :
  exists d, hands_out st (Search.yield_users env rs st) d.
Proof.
  revert st. induction rs as [|r rs IH]; intros st; cbn [Search.yield_users].
  - exists []. apply hands_out_nil.
  - destruct (User_of_data_logs env r) as [Hzero Hlogs].
    destruct (TikTokUser.User_of_data env r) as [logs [u|e]]; cbn [fst] in *.
    + match goal with |- context [Search.yield_users env rs ?s] =>
        destruct (IH s) as [d Hd] end.
      exists ((logs ++ [Yield (IUser u)]) ++ d).
      eapply hands_out_cons; [| | |exact Hd].
      * apply no_act_app; [exact Hlogs|repeat constructor].
      * cbn [emitted]. reflexivity.
      * cbn [amount_yielded]. rewrite yielded_app, Hzero. reflexivity.
    + exists logs. split; [exact Hlogs|split]; [reflexivity|exact I].
Qed.

Lemma yield_videos_hands_out (rs : list json) (st : run) :
  exists d, hands_out st (Search.yield_videos rs st) d.
Proof.
  revert st. induction rs as [|r rs IH]; intros st; cbn [Search.yield_videos].
  - exists []. apply hands_out_nil.
  - match goal with |- context [Search.yield_videos rs ?s] =>
      destruct (IH s) as [d Hd] end.
    exists ([Yield (video r)] ++ d).
    eapply hands_out_cons; [| | |exact Hd].
    + repeat constructor.
    + reflexivity.
    + reflexivity.
Qed.

Lemma yield_list_hands_out (enabled : bool) (results : json)
  (yield_all : list json -> run -> ctl run) (st : run) :
  (forall rs st', exists d, hands_out st' (yield_all rs st') d) ->
  exists d, hands_out st (Search.yield_list enabled results yield_all st) d.
Proof.
  intros Hall. unfold Search.yield_list.
  destruct enabled.
  - destruct (py_iter results) as [rs|e]; [apply Hall|].
    exists []. apply hands_out_throw.
  - exists []. apply hands_out_nil.
Qed.

Lemma hand_out_hands_out (env : Env) (obj_type : string)
  (m : list (string * json)) (st : run) :
  exists d, hands_out st (Search.hand_out env obj_type m st) d.
Proof.
  unfold Search.hand_out.
  destruct (yield_list_hands_out (String.eqb obj_type "user")
              (dict_get_default "user_list" m (JArr []))
              (Search.yield_users env) st (yield_users_hands_out env))
    as [d1 [Hd1 [Hem1 Hc1]]].
  destruct (Search.yield_list (String.eqb obj_type "user") _ _ st)
    as [st2|st2|e2 st2]; cbn [state_of] in Hem1; [|contradiction|].
  2: { exists d1. split; [exact Hd1|split]; [exact Hem1|exact I]. }
  destruct (yield_list_hands_out (String.eqb obj_type "item")
              (dict_get_default "item_list" m (JArr []))
              Search.yield_videos st2 yield_videos_hands_out) as [d2 Hd2].
  exists (d1 ++ d2).
  eapply hands_out_cons; [exact Hd1|exact Hem1|exact Hc1|exact Hd2].
Qed.

Lemma search_response_pass (env : Env) (obj_type : string) (r : Request)
  (st : run) :
  pass_spec (is_final env r) Search.no_more_videos r st
    (Search.search_response env obj_type r st).
Proof.
  unfold pass_spec, Search.search_response, is_final, get_response_body.
  set (st1 := {| urls := urls st ++ [url r];
                 amount_yielded := amount_yielded st;
                 emitted := emitted st ++ [Act (ResponseBody r)] |}).
  destruct (String.eqb (body r) EmptyString).
  { exists []. split; [constructor|split]; [reflexivity|exact I]. }
  cbn [negb andb].
  destruct (json_loads env (body r)) as [[| | | | | |m]|];
    try (exists []; split; [constructor|split]; [reflexivity|exact I]).
  2: { exists []. split; [constructor|split]; [reflexivity|].
       cbn. split; [lia|reflexivity]. }
  destruct (py_eq_str (dict_get_default "type" m JNull) "verify").
  { exists []. split; [constructor|split]; [reflexivity|].
    cbn. split; [lia|reflexivity]. }
  cbn [negb andb].
  destruct (hand_out_hands_out env obj_type m st1) as [d [Hd [Hem Hc]]].
  destruct (Search.hand_out env obj_type m st1) as [st3|st3|e3 st3];
    cbn [state_of] in Hem; [|contradiction|].
  2: { exists d. split; [exact Hd|split]; [|exact I].
       cbn [state_of]. rewrite Hem. cbn [st1 emitted].
       rewrite <- app_assoc. reflexivity. }
  destruct (py_eq_int (dict_get_default "has_more" m (JInt 0)) 0).
  - exists (d ++ [Log Info Search.no_more_videos]).
    split; [|split].
    + apply no_act_app; [exact Hd|repeat constructor].
    + cbn [state_of emit emitted]. rewrite Hem. cbn [st1 emitted].
      rewrite <- !app_assoc. reflexivity.
    + exists d. reflexivity.
  - exists d. split; [exact Hd|split].
    + cbn [state_of]. rewrite Hem. cbn [st1 emitted].
      rewrite <- !app_assoc. reflexivity.
    + split; [|reflexivity]. rewrite Hc. cbn [st1 amount_yielded]. lia.
Qed.

(** ** Where a run ends *)

Lemma no_act_no_response (t : trace) : no_act t -> no_response t.
Proof.
  intros Ht r Hin. unfold no_act in Ht. rewrite Forall_forall in Ht.
  specialize (Ht _ Hin). discriminate.
Qed.

(** The two places a response can occupy in a concatenation. *)
Lemma response_split (a d t1 t2 : trace) (r : Request) :
  a ++ d = t1 ++ Act (ResponseBody r) :: t2 ->
  (exists t2', a = t1 ++ Act (ResponseBody r) :: t2' /\ t2 = t2' ++ d) \/
  (exists t1', t1 = a ++ t1' /\ d = t1' ++ Act (ResponseBody r) :: t2).
Proof.
  intros H. apply app_eq_app in H. destruct H as [l [[Ha Ht]|[Ht Hd]]].
  - destruct l as [|e l].
    + right. exists []. rewrite app_nil_r in Ha. subst a.
      rewrite app_nil_r. split; [reflexivity|]. symmetry. exact Ht.
    + left. injection Ht as <- ->. exists l. split; [exact Ha|reflexivity].
  - right. exists l. split; assumption.
Qed.

Section Ending.

Variable bad : trace -> Request -> Prop.

Lemma quiet_calm (t d : trace) :
  quiet bad t -> no_response d -> quiet bad (t ++ d).
Proof.
  intros Ht Hd t1 r t2 Heq.
  destruct (response_split _ _ _ _ _ Heq) as [[t2' [Ha _]]|[t1' [_ Hd']]].
  - exact (Ht _ _ _ Ha).
  - exfalso. apply (Hd r). rewrite Hd'. apply in_elt.
Qed.

Lemma quiet_pass (t d : trace) (r : Request) :
  quiet bad t -> ~ bad t r -> no_act d ->
  quiet bad (t ++ Act (ResponseBody r) :: d).
Proof.
  intros Ht Hr Hd t1 r' t2 Heq.
  destruct (response_split _ _ _ _ _ Heq) as [[t2' [Ha _]]|[t1' [Ht1 Hd']]].
  - exact (Ht _ _ _ Ha).
  - destruct t1' as [|e t1'].
    + injection Hd' as -> _. rewrite app_nil_r in Ht1. subst t1. exact Hr.
    + exfalso. injection Hd' as _ Hd'.
      apply (no_act_no_response _ Hd r'). rewrite Hd'. apply in_elt.
Qed.

(** In a quiet trace extended by one pass, a bad response can only be
    the one of that pass. *)
Lemma split_unique (a d t1 t2 : trace) (r r' : Request) :
  quiet bad a -> no_act d ->
  a ++ Act (ResponseBody r) :: d = t1 ++ Act (ResponseBody r') :: t2 ->
  bad t1 r' ->
  t1 = a /\ r' = r /\ t2 = d.
Proof.
  intros Ha Hd Heq Hbad.
  destruct (response_split _ _ _ _ _ Heq) as [[t2' [Ha' _]]|[t1' [Ht1 Hd']]].
  - exfalso. exact (Ha _ _ _ Ha' Hbad).
  - destruct t1' as [|e t1'].
    + injection Hd' as -> ->. rewrite app_nil_r in Ht1. auto.
    + exfalso. injection Hd' as _ Hd'.
      apply (no_act_no_response _ Hd r'). rewrite Hd'. apply in_elt.
Qed.

(** A run whose trace is quiet ends there vacuously. *)
Lemma quiet_ends_there (ended : trace -> Request -> trace * status -> Prop)
  (t : trace) (ending : status) :
  quiet bad t -> ends_there bad ended (t, ending).
Proof.
  intros Ht t1 r t2 Heq Hbad. exfalso. exact (Ht _ _ _ Heq Hbad).
Qed.

Variable step : Request -> run -> ctl run.
Variable J : run -> Prop.

Hypothesis step_shape : forall r st,
  exists d, no_act d /\
    emitted (state_of (step r st)) = emitted st ++ Act (ResponseBody r) :: d.

Hypothesis step_next : forall r st st',
  J st -> step r st = Next st' -> J st' /\ ~ bad (emitted st) r.

(** The loop over the captured requests keeps the trace quiet while it
    goes on, and a run it ends, ends there. *)
Lemma batch_ends (rs : list Request) (st : run) :
  J st /\ quiet bad (emitted st) ->
  match for_each_request step rs st with
  | Next st' => J st' /\ quiet bad (emitted st')
  | c => forall result, finish c = Some result ->
                        ends_there bad (ended_by step J) result
  end.
Proof.
  apply (for_each_request_rule step
           (fun st => J st /\ quiet bad (emitted st))
           (fun c => forall result, finish c = Some result ->
                                    ends_there bad (ended_by step J) result)).
  clear rs st. intros r st [HJ Hq].
  destruct (step_shape r st) as [d [Hd Hem]].
  assert (Hend : forall result, finish (step r st) = Some result ->
                   ends_there bad (ended_by step J) result).
  { intros result Hfin t1 r' t2 Heq Hbad.
    assert (Hfst : fst result = emitted (state_of (step r st))).
    { destruct (step r st); cbn in Hfin; try discriminate;
        injection Hfin as <-; reflexivity. }
    rewrite Hfst, Hem in Heq.
    destruct (split_unique _ _ _ _ _ _ Hq Hd Heq Hbad) as [-> [-> ->]].
    split; [exact Hd|]. exists st. auto. }
  destruct (step r st) as [st'|st'|e st'] eqn:Hstep; [|exact Hend..].
  destruct (step_next r st st' HJ Hstep) as [HJ' Hnot].
  split; [exact HJ'|]. cbn [state_of] in Hem. rewrite Hem.
  apply quiet_pass; assumption.
Qed.

End Ending.

(** ** [Search.search_type]: the whole run *)

Lemma search_response_shape (env : Env) (obj_type : string) (r : Request)
  (st : run) :
  exists d, no_act d /\
    emitted (state_of (Search.search_response env obj_type r st)) =
    emitted st ++ Act (ResponseBody r) :: d.
Proof.
  destruct (search_response_pass env obj_type r st) as [d [Hd [Hem _]]].
  exists d. auto.
Qed.

Lemma search_response_next (env : Env) (obj_type : string) (r : Request)
  (st st' : run) :
  always st -> Search.search_response env obj_type r st = Next st' ->
  always st' /\ ~ search_bad env (emitted st) r.
Proof.
  intros _ Hstep.
  destruct (search_response_pass env obj_type r st) as [d [_ [_ Hc]]].
  rewrite Hstep in Hc. destruct Hc as [_ Hfinal].
  split; [exact I|]. unfold search_bad. rewrite Hfinal. discriminate.
Qed.

Lemma search_response_counted (env : Env) (obj_type : string) (r : Request)
  (st : run) :
  counted st ->
  match Search.search_response env obj_type r st with
  | Next st' => counted st'
  | c => stopped_with Search.no_more_videos c
  end.
Proof.
  intros Hst.
  destruct (search_response_pass env obj_type r st) as [d [_ [Hem Hc]]].
  destruct (Search.search_response env obj_type r st) as [st'|st'|e st'];
    cbn [state_of stopped_with] in *.
  - destruct Hc as [Hc _]. unfold counted in *.
    rewrite Hc, Hem, Hst, yielded_app. cbn [yielded]. lia.
  - destruct Hc as [d' ->]. exists (emitted st ++ Act (ResponseBody r) :: d').
    rewrite Hem, <- app_assoc. reflexivity.
  - exact I.
Qed.

Lemma counted_emit (st : run) (evs : trace) :
  yielded evs = 0 -> counted st -> counted (emit st evs).
Proof.
  unfold counted, emit. cbn. intros H0 ->. rewrite yielded_app. lia.
Qed.

Lemma no_response_calls (evs : trace) :
  Forall (fun e => forall r, e <> Act (ResponseBody r)) evs -> no_response evs.
Proof.
  intros H r Hin. rewrite Forall_forall in H. exact (H _ Hin r eq_refl).
Qed.

Lemma search_loop_ends (env : Env) (fuel : nat) (h : trace)
  (path obj_type : string) (count : Z) (st : run) :
  quiet (search_bad env) (emitted st) ->
  ends_there (search_bad env)
    (ended_by (Search.search_response env obj_type) always)
    (Search.search_loop env fuel h path obj_type count st).
Proof.
  revert st. induction fuel as [|fuel IH]; intros st Hq;
    cbn [Search.search_loop];
    destruct (amount_yielded st <? count);
    try (apply quiet_ends_there; exact Hq).
  set (st1 := emit st [Act RequestDelay; Act (GetRequests path)]).
  assert (Hq1 : quiet (search_bad env) (emitted st1)).
  { apply quiet_calm; [exact Hq|]. apply no_response_calls.
    repeat constructor; discriminate. }
  pose proof (batch_ends (search_bad env) (Search.search_response env obj_type)
                always (search_response_shape env obj_type)
                (search_response_next env obj_type)
                (Search.fresh_requests (urls st1)
                   (get_requests env (h ++ emitted st1) path))
                st1 (conj I Hq1)) as Hbatch.
  destruct (for_each_request _ _ st1) as [st2|st2|e st2].
  - destruct Hbatch as [_ Hq2].
    set (st3 := emit st2 _).
    assert (Hq3 : quiet (search_bad env) (emitted st3)).
    { apply quiet_calm; [exact Hq2|]. apply no_response_calls.
      repeat constructor; discriminate. }
    destruct (wait_until_not_skeleton_or_captcha env _ _).
    + apply quiet_ends_there. exact Hq3.
    + apply IH. exact Hq3.
  - apply Hbatch. reflexivity.
  - apply Hbatch. reflexivity.
Qed.

Lemma search_loop_counted (env : Env) (fuel : nat) (h : trace)
  (path obj_type : string) (count : Z) (st : run) (out : trace) :
  counted st ->
  Search.search_loop env fuel h path obj_type count st = (out, Returned) ->
  count <= yielded out \/ exists out', out = out' ++ [Log Info Search.no_more_videos].
Proof.
  revert st. induction fuel as [|fuel IH]; intros st Hst;
    cbn [Search.search_loop];
    destruct (amount_yielded st <? count) eqn:Hlt;
    try (intros Hrun; injection Hrun as <-; left;
         apply Z.ltb_ge in Hlt; rewrite <- Hst; exact Hlt);
    try discriminate.
  set (st1 := emit st [Act RequestDelay; Act (GetRequests path)]).
  assert (Hst1 : counted st1) by (apply counted_emit; [reflexivity|exact Hst]).
  pose proof (for_each_request_rule (Search.search_response env obj_type)
                counted (stopped_with Search.no_more_videos)
                (search_response_counted env obj_type)
                (Search.fresh_requests (urls st1)
                   (get_requests env (h ++ emitted st1) path))
                st1 Hst1) as Hbatch.
  destruct (for_each_request _ _ st1) as [st2|st2|e st2].
  - set (st3 := emit st2 _).
    destruct (wait_until_not_skeleton_or_captcha env _ _); [discriminate|].
    apply IH. apply counted_emit; [reflexivity|exact Hbatch].
  - intros Hrun. injection Hrun as <-. right. exact Hbatch.
  - discriminate.
Qed.

Lemma search_type_ends (env : Env) (fuel : nat) (h : trace) (search_term : json)
  (obj_type : string) (count : Z) :
  ends_there (search_bad env)
    (ended_by (Search.search_response env obj_type) always)
    (Search.search_type env fuel h search_term obj_type count).
Proof.
  unfold Search.search_type.
  assert (Hnil : quiet (search_bad env) []).
  { intros t1 r t2 Heq. destruct t1; discriminate. }
  destruct (if String.eqb obj_type "user" then _ else _) as [[subdomain subpath]|].
  - match goal with |- context [wait_for_content_or_captcha env (h ++ ?o) _] =>
      assert (Hq : quiet (search_bad env) o)
        by (apply (quiet_calm _ [] o Hnil); apply no_response_calls;
            repeat constructor; discriminate)
    end.
    destruct (wait_for_content_or_captcha env _ _).
    + apply quiet_ends_there. exact Hq.
    + apply search_loop_ends. exact Hq.
  - apply quiet_ends_there. exact Hnil.
Qed.

Lemma is_final_inv (env : Env) (r : Request) :
  is_final env r = true ->
  get_response_body r = Ok (body r) /\
  exists m, json_loads env (body r) = Some (JObj m) /\
            py_eq_str (dict_get_default "type" m JNull) "verify" = false /\
            py_eq_int (dict_get_default "has_more" m (JInt 0)) 0 = true.
Proof.
  unfold is_final, get_response_body. intros H.
  apply andb_true_iff in H. destruct H as [Hbody H].
  destruct (String.eqb (body r) EmptyString); [discriminate|].
  split; [reflexivity|].
  destruct (json_loads env (body r)) as [[| | | | | |m]|]; try discriminate.
  apply andb_true_iff in H. destruct H as [Hv Hm].
  exists m. repeat split; [|exact Hm].
  destruct (py_eq_str _ _); [discriminate|reflexivity].
Qed.

(** After a final response a search reads and requests nothing more and
    ends; it returns right after logging when handing out the items of
    the response raises nothing. *)
Lemma search_final_ends (env : Env) (fuel : nat) (h : trace)
  (search_term : json) (obj_type : string) (count : Z)
  (out t1 t2 : trace) (ending : status) (r : Request) :
  Search.search_type env fuel h search_term obj_type count = (out, ending) ->
  out = t1 ++ Act (ResponseBody r) :: t2 ->
  is_final env r = true ->
  no_act t2 /\ ending <> OutOfFuel /\
  forall m,
    json_loads env (body r) = Some (JObj m) ->
    (forall st, exists st', Search.hand_out env obj_type m st = Next st') ->
    ending = Returned /\
    exists d, t2 = d ++ [Log Info Search.no_more_videos].
Proof.
  intros Hrun Hout Hfinal.
  pose proof (search_type_ends env fuel h search_term obj_type count) as Hends.
  rewrite Hrun in Hends.
  destruct (Hends t1 r t2 Hout Hfinal) as [Hno [st [_ [Hst Hfin]]]].
  split; [exact Hno|].
  split.
  { destruct (Search.search_response env obj_type r st); cbn in Hfin;
      try discriminate; injection Hfin as _ <-; discriminate. }
  intros m Hloads Hhand.
  destruct (is_final_inv env r Hfinal) as [Hbody [m' [Hloads' [Hverify Hmore]]]].
  rewrite Hloads in Hloads'. injection Hloads' as <-.
  unfold Search.search_response in Hfin.
  rewrite Hbody, Hloads, Hverify in Hfin.
  match type of Hfin with context [Search.hand_out env obj_type m ?s] =>
    destruct (Hhand s) as [st3 Hst3];
    destruct (hand_out_hands_out env obj_type m s) as [d [_ [Hem _]]];
    rewrite Hst3 in Hfin, Hem
  end.
  rewrite Hmore in Hfin. cbn in Hfin. injection Hfin as Hout' <-.
  split; [reflexivity|]. exists d.
  cbn in Hem. rewrite Hem, Hst, Hout, <- !app_assoc in Hout'.
  apply app_inv_head in Hout'. cbn in Hout'. injection Hout' as Hout'.
  symmetry. exact Hout'.
Qed.

(** C8.  In every run of [Search.search_type], once a response whose
    envelope has [has_more == 0] has been read, the sequence ends: no
    further page is requested and no other response is read, so no item
    of a later response is yielded; the only events that follow are the
    items of that response and the log record, after which the run
    returns (it ends by an exception only if building one of the
    response's own items raises). *)
Theorem search_ends_after_has_more_zero :
  forall (env : Env) (fuel : nat) (h : trace) (search_term : json)
         (obj_type : string) (count : Z) (out t1 t2 : trace)
         (ending : status) (r : Request),
    Search.search_type env fuel h search_term obj_type count = (out, ending) ->
    out = t1 ++ Act (ResponseBody r) :: t2 ->
    is_final env r = true ->
    no_act t2 /\ ending <> OutOfFuel /\
    forall m,
      json_loads env (body r) = Some (JObj m) ->
      (forall st, exists st', Search.hand_out env obj_type m st = Next st') ->
      ending = Returned /\
      exists d, t2 = d ++ [Log Info Search.no_more_videos].
Proof. exact search_final_ends. Qed.

(** ** [User.videos]: one captured response *)

Lemma map_res_length {A B : Type} (f : A -> res B) (l : list A) (l' : list B) :
  map_res f l = Ok l' -> List.length l' = List.length l.
Proof.
  revert l'. induction l as [|x l IH]; intros l'; cbn [map_res].
  - intros H. injection H as <-. reflexivity.
  - destruct (f x) as [y|e]; cbn [bind]; [|discriminate].
    destruct (map_res f l) as [ys|e]; cbn [bind]; [|discriminate].
    intros H. injection H as <-. cbn. rewrite (IH ys eq_refl). reflexivity.
Qed.

Lemma videos_response_pass (env : Env) (n : Z) (r : Request) (st : run) :
  pass_spec ((1 <? n) && lacks env "hasMore" r) TikTokUser.no_more_tiktoks
    r st (TikTokUser.videos_response env n r st).
Proof.
  unfold pass_spec, TikTokUser.videos_response, lacks, get_response_body.
  set (st1 := {| urls := urls st ++ [url r];
                 amount_yielded := amount_yielded st;
                 emitted := emitted st ++ [Act (ResponseBody r)] |}).
  assert (Hthrow : forall e, exists d, no_act d /\
            emitted (state_of (Throw e st1)) =
              emitted st ++ Act (ResponseBody r) :: d /\ True).
  { intros e. exists []. split; [constructor|split]; [reflexivity|exact I]. }
  assert (Hpage : forall page videos final,
            (forall hm, TikTokUser.has_more_of n page = Ok hm ->
                        truthy hm = true -> final = false) ->
            exists d, no_act d /\
              emitted (state_of (TikTokUser.hand_out n page videos st1)) =
                emitted st ++ Act (ResponseBody r) :: d /\
              match TikTokUser.hand_out n page videos st1 with
              | Next st' =>
                  amount_yielded st' = amount_yielded st + yielded d /\
                  final = false
              | Stop _ =>
                  exists d', d = d' ++ [Log Info TikTokUser.no_more_tiktoks]
              | Throw _ _ => True
              end).
  { intros page videos final Hfinal. unfold TikTokUser.hand_out.
    destruct (py_len videos) as [k|e] eqn:Hlen;
      [|destruct (Hthrow e) as [d Hd]; exists d; exact Hd].
    destruct (py_iter videos) as [vs|e] eqn:Hiter;
      [|destruct (Hthrow e) as [d Hd]; exists d; exact Hd].
    pose proof (py_len_iter _ _ _ Hlen Hiter) as Hk.
    cbv zeta.
    destruct (TikTokUser.has_more_of n page) as [hm|e].
    - destruct (truthy hm) eqn:Htruthy.
      + exists (map (fun v => Yield (video v)) vs).
        split; [apply no_act_yielded_map|split].
        * cbn [state_of emitted st1]. rewrite <- app_assoc. reflexivity.
        * cbn [amount_yielded st1]. rewrite yielded_map_yield, Hk.
          split; [reflexivity|]. apply (Hfinal hm eq_refl Htruthy).
      + exists (map (fun v => Yield (video v)) vs
                ++ [Log Info TikTokUser.no_more_tiktoks]).
        split; [|split].
        * apply no_act_app; [apply no_act_yielded_map|repeat constructor].
        * cbn [state_of emit emitted st1]. rewrite <- !app_assoc. reflexivity.
        * eexists. reflexivity.
    - exists (map (fun v => Yield (video v)) vs).
      split; [apply no_act_yielded_map|split]; [|exact I].
      cbn [state_of emitted st1]. rewrite <- app_assoc. reflexivity. }
  destruct (String.eqb (body r) EmptyString); [apply Hthrow|].
  cbn [negb andb]. unfold TikTokUser.decode.
  destruct (n =? 1) eqn:Hn1.
  - apply Z.eqb_eq in Hn1. subst n.
    destruct (extract_tag_contents env (body r)) as [tag|e]; cbn [bind];
      [|apply Hthrow].
    destruct (json_loads env tag) as [page|]; [|apply Hthrow].
    destruct (TikTokUser.first_page_videos page) as [videos|e]; cbn [bind];
      [|apply Hthrow].
    apply Hpage. intros _ _ _. reflexivity.
  - destruct (n >? 1) eqn:Hgt; [|apply Hthrow].
    destruct (json_loads env (body r)) as [[| | | | | |m]|]; try apply Hthrow.
    destruct (py_eq_str (dict_get_default "type" m JNull) "verify").
    + exists []. split; [constructor|split]; [reflexivity|].
      cbn. rewrite andb_false_r. split; [lia|reflexivity].
    + apply Hpage.
      intros hm Hhm Htruthy. unfold TikTokUser.has_more_of in Hhm.
      rewrite Hn1 in Hhm. injection Hhm as <-.
      unfold dict_get_default, dict_has in *.
      destruct (dict_get "hasMore" m); [|discriminate].
      cbn. apply andb_false_r.
Qed.

(** ** [User.videos]: the whole run *)

Lemma scrolled_app (t t' : trace) :
  scrolled (t ++ t') = scrolled t || scrolled t'.
Proof. apply existsb_app. Qed.

Lemma no_act_not_scrolled (d : trace) : no_act d -> scrolled d = false.
Proof.
  intros Hd. induction Hd as [|e d He _ IH]; [reflexivity|].
  change (scrolled (e :: d)) with (is_scroll e || scrolled d).
  rewrite IH. destruct e as [| |[]]; try reflexivity; discriminate.
Qed.

Lemma videos_response_shape (env : Env) (n : Z) (r : Request) (st : run) :
  exists d, no_act d /\
    emitted (state_of (TikTokUser.videos_response env n r st)) =
    emitted st ++ Act (ResponseBody r) :: d.
Proof.
  destruct (videos_response_pass env n r st) as [d [Hd [Hem _]]].
  exists d. auto.
Qed.

Lemma videos_response_next (env : Env) (n : Z) (r : Request) (st st' : run) :
  on_page n st -> TikTokUser.videos_response env n r st = Next st' ->
  on_page n st' /\ ~ videos_bad env (emitted st) r.
Proof.
  intros [Hn Hfirst] Hstep.
  destruct (videos_response_pass env n r st) as [d [Hd [Hem Hc]]].
  rewrite Hstep in Hem, Hc. cbn [state_of] in Hem. destruct Hc as [_ Hfinal].
  split.
  - split; [exact Hn|]. intros Hn1. rewrite Hem, scrolled_app.
    rewrite (Hfirst Hn1). cbn. apply (no_act_not_scrolled d Hd).
  - intros [Hscrolled Hlacks]. rewrite Hlacks, andb_true_r in Hfinal.
    apply Z.ltb_ge in Hfinal.
    assert (Hn1 : n = 1) by lia.
    rewrite (Hfirst Hn1) in Hscrolled. discriminate.
Qed.

Lemma videos_response_counted (env : Env) (n : Z) (r : Request) (st : run) :
  counted st ->
  match TikTokUser.videos_response env n r st with
  | Next st' => counted st'
  | c => stopped_with TikTokUser.no_more_tiktoks c
  end.
Proof.
  intros Hst.
  destruct (videos_response_pass env n r st) as [d [_ [Hem Hc]]].
  destruct (TikTokUser.videos_response env n r st) as [st'|st'|e st'];
    cbn [state_of stopped_with] in *.
  - destruct Hc as [Hc _]. unfold counted in *.
    rewrite Hc, Hem, Hst, yielded_app. cbn [yielded]. lia.
  - destruct Hc as [d' ->]. exists (emitted st ++ Act (ResponseBody r) :: d').
    rewrite Hem, <- app_assoc. reflexivity.
  - exact I.
Qed.

Lemma ends_there_videos (env : Env) (n : Z) (result : trace * status) :
  ends_there (videos_bad env)
    (ended_by (TikTokUser.videos_response env n) (on_page n)) result ->
  ends_there (videos_bad env)
    (videos_ended (TikTokUser.videos_response env)) result.
Proof.
  intros H t1 r t2 Heq Hbad.
  destruct (H t1 r t2 Heq Hbad) as [Hno [st [[Hn Hfirst] [Hem Hfin]]]].
  split; [exact Hno|]. exists n, st. split; [|auto].
  destruct Hbad as [Hscrolled _]. rewrite <- Hem in Hscrolled.
  destruct (Z.eq_dec n 1) as [Hn1|Hn1]; [|lia].
  rewrite (Hfirst Hn1) in Hscrolled. discriminate.
Qed.

Lemma on_page_emit (n : Z) (st : run) (evs : trace) :
  scrolled evs = false -> on_page n st -> on_page n (emit st evs).
Proof.
  intros Hevs [Hn Hfirst]. split; [exact Hn|].
  intros Hn1. cbn. rewrite scrolled_app, (Hfirst Hn1), Hevs. reflexivity.
Qed.

Lemma videos_loop_ends (env : Env) (fuel : nat) (h : trace) (self : User)
  (count n : Z) (st : run) :
  on_page n st ->
  quiet (videos_bad env) (emitted st) ->
  ends_there (videos_bad env)
    (videos_ended (TikTokUser.videos_response env))
    (TikTokUser.videos_loop env fuel h self count n st).
Proof.
  revert n st. induction fuel as [|fuel IH]; intros n st Hpage Hq;
    cbn [TikTokUser.videos_loop];
    destruct (amount_yielded st <? count);
    try (apply quiet_ends_there; exact Hq).
  destruct (TikTokUser.videos_path env self n) as [path|];
    [|apply quiet_ends_there; exact Hq].
  set (st1 := emit st [Act (GetRequests path)]).
  assert (Hq1 : quiet (videos_bad env) (emitted st1)).
  { apply quiet_calm; [exact Hq|]. apply no_response_calls.
    repeat constructor; discriminate. }
  assert (Hpage1 : on_page n st1) by (apply on_page_emit; [reflexivity|exact Hpage]).
  pose proof (batch_ends (videos_bad env) (TikTokUser.videos_response env n)
                (on_page n) (videos_response_shape env n)
                (videos_response_next env n)
                (get_requests env (h ++ emitted st1) path)
                st1 (conj Hpage1 Hq1)) as Hbatch.
  destruct (for_each_request _ _ st1) as [st2|st2|e st2].
  - destruct Hbatch as [[Hn _] Hq2].
    set (st3 := emit st2 _).
    assert (Hq3 : quiet (videos_bad env) (emitted st3)).
    { apply quiet_calm; [exact Hq2|]. apply no_response_calls.
      repeat constructor; discriminate. }
    destruct (wait_until_not_skeleton_or_captcha env _ _).
    + apply quiet_ends_there. exact Hq3.
    + apply IH.
      * split; [lia|]. intros Hn1. lia.
      * apply quiet_calm; [exact Hq3|]. apply no_response_calls.
        repeat constructor; discriminate.
  - apply ends_there_videos with (n := n). apply Hbatch. reflexivity.
  - apply ends_there_videos with (n := n). apply Hbatch. reflexivity.
Qed.

Lemma videos_loop_counted (env : Env) (fuel : nat) (h : trace) (self : User)
  (count n : Z) (st : run) (out : trace) :
  counted st ->
  TikTokUser.videos_loop env fuel h self count n st = (out, Returned) ->
  count <= yielded out \/
  exists out', out = out' ++ [Log Info TikTokUser.no_more_tiktoks].
Proof.
  revert n st. induction fuel as [|fuel IH]; intros n st Hst;
    cbn [TikTokUser.videos_loop];
    destruct (amount_yielded st <? count) eqn:Hlt;
    try (intros Hrun; injection Hrun as <-; left;
         apply Z.ltb_ge in Hlt; rewrite <- Hst; exact Hlt);
    try discriminate.
  destruct (TikTokUser.videos_path env self n) as [path|]; [|discriminate].
  set (st1 := emit st [Act (GetRequests path)]).
  assert (Hst1 : counted st1) by (apply counted_emit; [reflexivity|exact Hst]).
  pose proof (for_each_request_rule (TikTokUser.videos_response env n)
                counted (stopped_with TikTokUser.no_more_tiktoks)
                (videos_response_counted env n)
                (get_requests env (h ++ emitted st1) path)
                st1 Hst1) as Hbatch.
  destruct (for_each_request _ _ st1) as [st2|st2|e st2].
  - set (st3 := emit st2 _).
    destruct (wait_until_not_skeleton_or_captcha env _ _); [discriminate|].
    apply IH. apply counted_emit; [reflexivity|].
    apply counted_emit; [reflexivity|exact Hbatch].
  - intros Hrun. injection Hrun as <-. right. exact Hbatch.
  - discriminate.
Qed.

Lemma videos_ends (env : Env) (fuel : nat) (h : trace) (self : User)
  (count : Z) :
  ends_there (videos_bad env)
    (videos_ended (TikTokUser.videos_response env))
    (TikTokUser.videos env fuel h self count).
Proof.
  unfold TikTokUser.videos.
  assert (Hnil : quiet (videos_bad env) []).
  { intros t1 r t2 Heq. destruct t1; discriminate. }
  match goal with |- context [wait_for_content_or_captcha env (h ++ ?o) _] =>
    assert (Hq : quiet (videos_bad env) o)
      by (apply (quiet_calm _ [] o Hnil); apply no_response_calls;
          repeat constructor; discriminate)
  end.
  destruct (wait_for_content_or_captcha env _ _).
  - apply quiet_ends_there. exact Hq.
  - apply videos_loop_ends; [|exact Hq].
    split; [lia|]. intros _. reflexivity.
Qed.

Lemma lacks_inv (env : Env) (key : string) (r : Request) :
  lacks env key r = true ->
  get_response_body r = Ok (body r) /\
  exists m, json_loads env (body r) = Some (JObj m) /\
            py_eq_str (dict_get_default "type" m JNull) "verify" = false /\
            dict_get key m = None.
Proof.
  unfold lacks, get_response_body. intros H.
  apply andb_true_iff in H. destruct H as [Hbody H].
  destruct (String.eqb (body r) EmptyString); [discriminate|].
  split; [reflexivity|].
  destruct (json_loads env (body r)) as [[| | | | | |m]|]; try discriminate.
  apply andb_true_iff in H. destruct H as [Hv Hm].
  exists m. repeat split.
  - destruct (py_eq_str _ _); [discriminate|reflexivity].
  - unfold dict_has in Hm. destruct (dict_get key m); [discriminate|reflexivity].
Qed.

Lemma lacks_has_more_final (env : Env) (r : Request) :
  lacks env "has_more" r = true -> is_final env r = true.
Proof.
  intros H. destruct (lacks_inv env _ r H) as [Hbody [m [Hloads [Hv Hm]]]].
  unfold is_final. unfold get_response_body in Hbody.
  destruct (String.eqb (body r) EmptyString); [discriminate|].
  rewrite Hloads, Hv. unfold dict_get_default. rewrite Hm. reflexivity.
Qed.

(** After a response without "hasMore" on a page after the first,
    [User.videos] reads and requests nothing more and ends; when the
    item list can be iterated it hands out the items, logs and returns. *)
Lemma videos_exhausted_ends (env : Env) (fuel : nat) (h : trace) (self : User)
  (count : Z) (out t1 t2 : trace) (ending : status) (r : Request) :
  TikTokUser.videos env fuel h self count = (out, ending) ->
  out = t1 ++ Act (ResponseBody r) :: t2 ->
  scrolled t1 = true ->
  lacks env "hasMore" r = true ->
  no_act t2 /\ ending <> OutOfFuel /\
  forall m vs,
    json_loads env (body r) = Some (JObj m) ->
    py_iter (dict_get_default "itemList" m (JArr [])) = Ok vs ->
    t2 = map (fun v => Yield (video v)) vs
         ++ [Log Info TikTokUser.no_more_tiktoks] /\
    ending = Returned.
Proof.
  intros Hrun Hout Hscrolled Hlacks.
  pose proof (videos_ends env fuel h self count) as Hends.
  rewrite Hrun in Hends.
  destruct (Hends t1 r t2 Hout (conj Hscrolled Hlacks))
    as [Hno [n [st [Hn [Hst Hfin]]]]].
  split; [exact Hno|].
  split.
  { destruct (TikTokUser.videos_response env n r st); cbn in Hfin;
      try discriminate; injection Hfin as _ <-; discriminate. }
  intros m vs Hloads Hiter.
  destruct (lacks_inv env _ r Hlacks) as [Hbody [m' [Hloads' [Hverify Hmore]]]].
  rewrite Hloads in Hloads'. injection Hloads' as <-.
  unfold TikTokUser.videos_response, TikTokUser.decode in Hfin.
  rewrite Hbody in Hfin.
  replace (n =? 1) with false in Hfin by (symmetry; apply Z.eqb_neq; lia).
  replace (n >? 1) with true in Hfin by (symmetry; apply Z.gtb_lt; lia).
  rewrite Hloads, Hverify in Hfin.
  unfold TikTokUser.hand_out, TikTokUser.has_more_of in Hfin.
  rewrite (py_iter_len _ _ Hiter), Hiter in Hfin.
  replace (n =? 1) with false in Hfin by (symmetry; apply Z.eqb_neq; lia).
  unfold dict_get_default in Hfin. rewrite Hmore in Hfin.
  cbn in Hfin. injection Hfin as Hout' <-.
  split; [|reflexivity].
  rewrite Hst, Hout, <- !app_assoc in Hout'.
  apply app_inv_head in Hout'. cbn in Hout'. injection Hout' as Hout'.
  symmetry. exact Hout'.
Qed.

(** C10.  A response envelope read on a page after the first that has no
    has-more field at all makes pagination treat the source as
    exhausted: [User.videos] (default [False] for "hasMore") and
    [Search.search_type] (default 0 for "has_more") request no further
    page and read no further response after it, and the run ends; it
    returns after handing out the response's items and logging. *)
Theorem missing_has_more_ends_run :
  forall env : Env,
    (forall (fuel : nat) (h : trace) (self : User) (count : Z)
            (out t1 t2 : trace) (ending : status) (r : Request),
        TikTokUser.videos env fuel h self count = (out, ending) ->
        out = t1 ++ Act (ResponseBody r) :: t2 ->
        scrolled t1 = true ->
        lacks env "hasMore" r = true ->
        no_act t2 /\ ending <> OutOfFuel /\
        forall m vs,
          json_loads env (body r) = Some (JObj m) ->
          py_iter (dict_get_default "itemList" m (JArr [])) = Ok vs ->
          t2 = map (fun v => Yield (video v)) vs
               ++ [Log Info TikTokUser.no_more_tiktoks] /\
          ending = Returned) /\
    (forall (fuel : nat) (h : trace) (search_term : json) (obj_type : string)
            (count : Z) (out t1 t2 : trace) (ending : status) (r : Request),
        Search.search_type env fuel h search_term obj_type count = (out, ending) ->
        out = t1 ++ Act (ResponseBody r) :: t2 ->
        lacks env "has_more" r = true ->
        no_act t2 /\ ending <> OutOfFuel /\
        forall m,
          json_loads env (body r) = Some (JObj m) ->
          (forall st, exists st', Search.hand_out env obj_type m st = Next st') ->
          ending = Returned /\
          exists d, t2 = d ++ [Log Info Search.no_more_videos]).
Proof.
  intros env. split.
  - intros fuel h self count out t1 t2 ending r.
    apply videos_exhausted_ends.
  - intros fuel h search_term obj_type count out t1 t2 ending r Hrun Hout Hlacks.
    exact (search_final_ends env fuel h search_term obj_type count out t1 t2
             ending r Hrun Hout (lacks_has_more_final env r Hlacks)).
Qed.

(** ** Requested count *)

(** C1, as amended.  A run of [User.videos] or of [Search.search_type]
    that ends without an exception has yielded at least the requested
    count of items, unless it ended at a response that signalled no more
    results, which is the last thing it logs.  Nothing is truncated:
    the bound is a lower bound. *)
Theorem pagination_reaches_count :
  forall (env : Env) (fuel : nat) (h : trace) (count : Z) (out : trace),
    (forall self : User,
        TikTokUser.videos env fuel h self count = (out, Returned) ->
        count <= yielded out \/
        exists out', out = out' ++ [Log Info TikTokUser.no_more_tiktoks]) /\
    (forall (search_term : json) (obj_type : string),
        Search.search_type env fuel h search_term obj_type count = (out, Returned) ->
        count <= yielded out \/
        exists out', out = out' ++ [Log Info Search.no_more_videos]).
Proof.
  intros env fuel h count out. split.
  - intros self. unfold TikTokUser.videos.
    destruct (wait_for_content_or_captcha env _ _); [discriminate|].
    apply videos_loop_counted. reflexivity.
  - intros search_term obj_type. unfold Search.search_type.
    destruct (if String.eqb obj_type "user" then _ else _)
      as [[subdomain subpath]|]; [|discriminate].
    destruct (wait_for_content_or_captcha env _ _); [discriminate|].
    apply search_loop_counted. reflexivity.
Qed.

(** ** The properties on the scenarios *)

Import Scenario.

Lemma normalize_video_alice_witness :
  exists video' : json,
    TikTokUser.normalize_video first_page (JObj raw_video) = Ok video' /\
    item video' "createTime" = Ok (JInt 1690000000) /\
    item video' "author" =
      Ok (JObj [("id", JStr "1"); ("uniqueId", JStr "alice");
                ("nickname", JStr "Alice"); ("avatarThumb", JStr "a.jpg");
                ("signature", JStr "hi"); ("verified", JBool false);
                ("secUid", JStr "MS4"); ("secret", JBool false);
                ("ftc", JBool false); ("relation", JInt 0);
                ("openFavorite", JBool false); ("commentSetting", JInt 0);
                ("duetSetting", JInt 0); ("stitchSetting", JInt 0);
                ("privateAccount", JBool false)]).
Proof.
  apply (normalize_video_alice first_page user_module users_map alice_entry
           raw_video); reflexivity.
Defined.

Lemma info_full_status_code_witness :
  snd (TikTokUser.info_full missing_profile [] alice) =
    Err (NotFoundException "TikTok user with username alice does not exist") /\
  snd (TikTokUser.info_full resolving [] alice) =
    Ok (JObj [("user", JObj [("id", JStr "1"); ("secUid", JStr "MS41");
                             ("uniqueId", JStr "alice")])]).
Proof.
  split.
  - edestruct (info_full_status_code missing_profile [] alice "alice")
      as [Hmissing _];
      [reflexivity|discriminate|reflexivity..|].
    exact (Hmissing eq_refl).
  - edestruct (info_full_status_code resolving [] alice "alice")
      as [_ Hfound];
      [reflexivity|discriminate|reflexivity..|].
    exact (Hfound eq_refl).
Defined.

Lemma liked_private_first_page_witness :
  TikTokUser.liked private_likes 3 [] alice_known 30 (JInt 0) =
    ([Act (GetData (JStr "1") (JStr "MS4") (JInt 0));
      Log Error TikTokUser.likes_private], Returned) /\
  items_of (fst (TikTokUser.liked private_likes 3 [] alice_known 30 (JInt 0)))
    = [].
Proof.
  exact (liked_private_first_page private_likes 2 [] [] alice_known
           alice_known 30 (JInt 0) [("statusCode", JInt 10000)]
           eq_refl eq_refl eq_refl eq_refl).
Defined.

Lemma no_match_alice_fan : no_match (JStr "alice") (firstn 6 (fst people_run)).
Proof.
  intros i Hin. vm_compute in Hin.
  repeat (destruct Hin as [Hin|Hin];
          [first [discriminate
                 |injection Hin as <-; eexists; split; reflexivity]|]).
  destruct Hin.
Qed.

Lemma no_match_carol : no_match (JStr "carol") (fst people_run).
Proof.
  intros i Hin. vm_compute in Hin.
  repeat (destruct Hin as [Hin|Hin];
          [first [discriminate
                 |injection Hin as <-; eexists; split; reflexivity]|]).
  destruct Hin.
Qed.

Lemma find_attributes_order_witness :
  TikTokUser.find_attributes resolving [] alice =
    (without_items (firstn 6 (fst people_run)),
     Done {| username := JStr "alice"; user_id := JStr "1";
             sec_uid := JStr "MS41"; as_dict := None |}) /\
  fst (TikTokUser.find_attributes resolving [] carol) =
    without_items (fst people_run)
    ++ [Act (HttpGet "https://tiktok.com/@carol?lang=en")].
Proof.
  split.
  - destruct (find_attributes_order resolving [] (fst people_run)
                (snd people_run) alice eq_refl) as [Hmatch _].
    exact (Hmatch (firstn 6 (fst people_run)) (skipn 7 (fst people_run))
             alice_found eq_refl no_match_alice_fan eq_refl).
  - destruct (find_attributes_order resolving [] (fst people_run)
                (snd people_run) carol eq_refl) as [_ Hfallback].
    exact (proj1 (Hfallback no_match_carol eq_refl)).
Defined.

Lemma verify_response_skipped_witness :
  let denied := item_list "1" verify_text in
  let st := {| urls := []; amount_yielded := 3; emitted := [] |} in
  let st1 := {| urls := [url denied]; amount_yielded := 3;
                emitted := [Act (ResponseBody denied)] |} in
  Search.search_response search_pages "item" denied st = Next st1 /\
  TikTokUser.videos_response kept_traffic 2 denied st = Next st1.
Proof.
  split.
  - destruct (verify_response_skipped search_pages (item_list "1" verify_text)
                [] {| urls := []; amount_yielded := 3; emitted := [] |}
                [("type", JStr "verify")]) as [Hsearch _];
      [discriminate|reflexivity|reflexivity|].
    exact (proj1 (Hsearch "item"%string)).
  - destruct (verify_response_skipped kept_traffic (item_list "1" verify_text)
                [] {| urls := []; amount_yielded := 3; emitted := [] |}
                [("type", JStr "verify")]) as [_ Hvideos];
      [discriminate|reflexivity|reflexivity|].
    exact (proj1 (Hvideos 2 eq_refl)).
Defined.

Lemma yield_videos_next (rs : list json) (st : run) :
  exists st', Search.yield_videos rs st = Next st'.
Proof.
  revert st. induction rs as [|r rs IH]; intros st; cbn [Search.yield_videos].
  - exists st. reflexivity.
  - apply IH.
Qed.

(** A search for items hands out every element of an item list. *)
Lemma hand_out_items_next (env : Env) (m : list (string * json))
  (rs : list json) (st : run) :
  dict_get_default "item_list" m (JArr []) = JArr rs ->
  exists st', Search.hand_out env "item" m st = Next st'.
Proof.
  intros Hrs. unfold Search.hand_out, Search.yield_list. cbn [String.eqb Ascii.eqb Bool.eqb].
  rewrite Hrs. cbn [py_iter]. apply yield_videos_next.
Qed.

Lemma search_ends_after_has_more_zero_witness :
  is_final search_pages (search_page "12" (found_text "2" "0")) = true /\
  fst search_run =
    firstn 13 (fst search_run)
    ++ Act (ResponseBody (search_page "12" (found_text "2" "0")))
       :: [Yield (video (JInt 2)); Log Info Search.no_more_videos] /\
  no_act [Yield (video (JInt 2)); Log Info Search.no_more_videos] /\
  snd search_run = Returned.
Proof.
  destruct (search_ends_after_has_more_zero search_pages 10 [] (JStr "cats")
              "item" 10 (fst search_run) (firstn 13 (fst search_run))
              [Yield (video (JInt 2)); Log Info Search.no_more_videos]
              (snd search_run) (search_page "12" (found_text "2" "0"))
              eq_refl eq_refl eq_refl) as [Hno [_ Hreturned]].
  split; [reflexivity|split; [reflexivity|split; [exact Hno|]]].
  apply (Hreturned [("item_list", JArr [JInt 2]); ("has_more", JInt 0)] eq_refl).
  intros st. apply (hand_out_items_next _ _ [JInt 2]). reflexivity.
Defined.

Lemma missing_has_more_ends_run_witness :
  (lacks bare_envelope "hasMore" (item_list "2" bare_text) = true /\
   fst bare_run =
     firstn 11 (fst bare_run)
     ++ Act (ResponseBody (item_list "2" bare_text))
        :: [Yield (video (JInt 5)); Log Info TikTokUser.no_more_tiktoks] /\
   snd bare_run = Returned) /\
  (lacks search_bare "has_more" (search_page "0" "{}") = true /\
   fst search_bare_run =
     firstn 4 (fst search_bare_run)
     ++ Act (ResponseBody (search_page "0" "{}"))
        :: [Log Info Search.no_more_videos] /\
   snd search_bare_run = Returned).
Proof.
  split.
  - destruct (missing_has_more_ends_run bare_envelope) as [Hvideos _].
    destruct (Hvideos 10%nat [] alice 5 (fst bare_run)
                (firstn 11 (fst bare_run))
                [Yield (video (JInt 5)); Log Info TikTokUser.no_more_tiktoks]
                (snd bare_run) (item_list "2" bare_text)
                eq_refl eq_refl eq_refl eq_refl) as [_ [_ Hexact]].
    split; [reflexivity|split; [reflexivity|]].
    exact (proj2 (Hexact [("itemList", JArr [JInt 5])] [JInt 5]
                    eq_refl eq_refl)).
  - destruct (missing_has_more_ends_run search_bare) as [_ Hsearch].
    destruct (Hsearch 10%nat [] (JStr "cats") "item"%string 10
                (fst search_bare_run) (firstn 4 (fst search_bare_run))
                [Log Info Search.no_more_videos]
                (snd search_bare_run) (search_page "0" "{}")
                eq_refl eq_refl eq_refl) as [_ [_ Hexact]].
    split; [reflexivity|split; [reflexivity|]].
    apply (Hexact [] eq_refl).
    intros st. apply (hand_out_items_next _ _ []). reflexivity.
Defined.

Lemma pagination_reaches_count_witness :
  (10 <= yielded (fst kept_run) \/
   exists out', fst kept_run = out' ++ [Log Info TikTokUser.no_more_tiktoks]) /\
  (10 <= yielded (fst search_run) \/
   exists out', fst search_run = out' ++ [Log Info Search.no_more_videos]).
Proof.
  split.
  - exact (proj1 (pagination_reaches_count kept_traffic 10 [] 10 (fst kept_run))
             alice eq_refl).
  - exact (proj2 (pagination_reaches_count search_pages 10 [] 10 (fst search_run))
             (JStr "cats") "item"%string eq_refl).
Defined.

(** C1, as the specification words it, fails: with a requested count of
    5, [User.videos] yields the single video of the first page, scrolls,
    and the captcha shown then ends the run by [CaptchaException]: fewer
    than 5 items, no end of results signalled, and the error is not on
    the first page. *)
Lemma requested_count_not_met :
  snd captcha_run = Raised CaptchaException /\
  yielded (fst captcha_run) = 1 /\
  scrolled (fst captcha_run) = true /\
  source_exhausted (fst captcha_run) = false /\
  meets_count 5 captcha_run = false.
Proof. repeat split; vm_compute; reflexivity. Qed.

(** [User.liked] adds the length of the page to its counter and then one
    more for each video (lines 269 and 271): with a requested count of 2
    it stops after one video although more are announced. *)
Lemma liked_counts_each_video_twice :
  TikTokUser.liked public_likes 3 [] alice_known 2 (JInt 0) =
    ([Act (GetData (JStr "1") (JStr "MS4") (JInt 0)); Yield (video (JInt 1))],
     Returned).
Proof. reflexivity. Qed.

(** ** Deduplication *)

(** [Search.search_type] reads, in each cycle, exactly the captured
    requests whose URL it has not processed before. *)
Lemma fresh_requests_spec (processed_urls : list string)
  (search_requests : list Request) (r : Request) :
  In r (Search.fresh_requests processed_urls search_requests) <->
  In r search_requests /\ ~ In (url r) processed_urls.
Proof.
  unfold Search.fresh_requests. rewrite filter_In.
  split; intros [Hin H]; (split; [exact Hin|]).
  - intros Hurl. apply negb_true_iff in H.
    assert (Hex : existsb (String.eqb (url r)) processed_urls = true).
    { apply existsb_exists. exists (url r). split; [exact Hurl|].
      apply String.eqb_refl. }
    rewrite Hex in H. discriminate.
  - apply negb_true_iff. destruct (existsb _ _) eqn:Hex; [|reflexivity].
    apply existsb_exists in Hex. destruct Hex as [u [Hu Heq]].
    apply String.eqb_eq in Heq. subst u. contradiction.
Qed.

(** On traffic that keeps the first request in the buffer, the search
    reads it once. *)
Lemma search_reads_kept_request_once :
  reads "https://www.tiktok.com/api/search/item/full/?offset=0"
    (fst search_run) = 1%nat.
Proof. reflexivity. Qed.

(** C2 fails in [User.videos]: [searched_urls] is appended to (line 158)
    and never consulted.  When the traffic buffer still holds the request
    of the second page while the third page is loaded, that request is
    read and decoded again and its video is yielded a second time. *)
Theorem videos_reads_kept_request_again :
  reads "https://www.tiktok.com/api/post/item_list/?cursor=1" (fst kept_run)
    = 2%nat /\
  tl (items_of (fst kept_run)) =
    [video (JInt 2); video (JInt 2); video (JInt 9)] /\
  snd kept_run = Returned.
Proof. repeat split. Qed.

(** ** Bodies that are not JSON *)

(** [Search.search_type] skips a body that does not decode and goes on
    with the next captured request. *)
Lemma search_response_decode_failure (env : Env) (obj_type : string)
  (request : Request) (st : run) :
  body request <> EmptyString ->
  json_loads env (body request) = None ->
  Search.search_response env obj_type request st =
    Next {| urls := urls st ++ [url request];
            amount_yielded := amount_yielded st;
            emitted := emitted st ++ [Act (ResponseBody request)] |}.
Proof.
  intros Hbody Hloads. unfold Search.search_response, get_response_body.
  destruct (String.eqb_spec (body request) EmptyString); [contradiction|].
  rewrite Hloads. reflexivity.
Qed.

(** [User.videos] has no handler: on a page after the first the decode
    failure propagates. *)
Lemma videos_response_decode_failure (env : Env) (request_num : Z)
  (request : Request) (st : run) :
  1 < request_num ->
  body request <> EmptyString ->
  json_loads env (body request) = None ->
  TikTokUser.videos_response env request_num request st =
    Throw JSONDecodeError
      {| urls := urls st ++ [url request];
         amount_yielded := amount_yielded st;
         emitted := emitted st ++ [Act (ResponseBody request)] |}.
Proof.
  intros Hnum Hbody Hloads.
  unfold TikTokUser.videos_response, TikTokUser.decode, get_response_body.
  destruct (String.eqb_spec (body request) EmptyString); [contradiction|].
  replace (request_num =? 1) with false by (symmetry; apply Z.eqb_neq; lia).
  replace (request_num >? 1) with true by (symmetry; apply Z.gtb_lt; lia).
  rewrite Hloads. reflexivity.
Qed.

Lemma search_skips_broken_body :
  snd search_broken_run = Returned /\
  items_of (fst search_broken_run) = [video (JInt 2)].
Proof. split; reflexivity. Qed.

(** C4 fails in [User.videos]: when the second page holds a body that is
    not JSON followed by a good response, the run ends by
    [JSONDecodeError] at the first of them; the good response is never
    read and only the video of the first page was yielded. *)
Theorem videos_decode_failure_raises :
  snd broken_run = Raised JSONDecodeError /\
  reads "https://www.tiktok.com/api/post/item_list/?cursor=2" (fst broken_run)
    = 0%nat /\
  yielded (fst broken_run) = 1.
Proof. repeat split. Qed.

(** * Further properties *)

(** ** Each cycle of a search reads only addresses it has not read *)

Lemma known_In (address : string) (addresses : list string) :
  known address addresses = true <-> In address addresses.
Proof.
  unfold known. rewrite existsb_exists. split.
  - intros [x [Hx Heq]]. apply String.eqb_eq in Heq. subst x. exact Hx.
  - intros Hin. exists address. split; [exact Hin|apply String.eqb_refl].
Qed.

Lemma cycle_state_app (f s : list string) (t d : trace) :
  cycle_state f s (t ++ d) =
  cycle_state (fst (cycle_state f s t)) (snd (cycle_state f s t)) d.
Proof.
  revert f s. induction t as [|e t IH]; intros f s; [reflexivity|].
  destruct e as [i|l msg|[]]; cbn [app cycle_state]; apply IH.
Qed.

Lemma cycles_fresh_app (f s : list string) (t d : trace) :
  cycles_fresh f s (t ++ d) =
  cycles_fresh f s t
  && cycles_fresh (fst (cycle_state f s t)) (snd (cycle_state f s t)) d.
Proof.
  revert f s. induction t as [|e t IH]; intros f s; [reflexivity|].
  destruct e as [i|l msg|[]]; cbn [app cycle_state cycles_fresh];
    rewrite ?IH, ?andb_assoc; reflexivity.
Qed.

Lemma cycle_state_seen (f s : list string) (t : trace) :
  snd (cycle_state f s t) = s ++ read_urls t.
Proof.
  revert f s. induction t as [|e t IH]; intros f s.
  - cbn. now rewrite app_nil_r.
  - destruct e as [i|l msg|[]]; cbn [cycle_state responses_of read_urls map];
      rewrite ?IH; try reflexivity.
    unfold read_urls. cbn [responses_of map]. rewrite <- app_assoc. reflexivity.
Qed.

Lemma calm_cycle (f s : list string) (d : trace) :
  no_act d -> cycles_fresh f s d = true /\ cycle_state f s d = (f, s).
Proof.
  intros Hd. induction Hd as [|e d He _ IH]; [split; reflexivity|].
  destruct e as [i|l msg|a]; [exact IH|exact IH|discriminate].
Qed.

(** A response read after a call of [get_requests] is unknown to every
    list of addresses that was frozen before. *)
Lemma cycles_fresh_later (f0 f s : list string) (t2 t3 : trace) (r : Request) :
  cycles_fresh f s (t2 ++ Act (ResponseBody r) :: t3) = true ->
  incl f0 f -> incl f s ->
  known (url r) f0 = false.
Proof.
  revert f s. induction t2 as [|e t2 IH]; intros f s Hok Hf0 Hfs.
  - cbn [app cycles_fresh] in Hok. apply andb_true_iff in Hok.
    destruct Hok as [Hok _]. apply negb_true_iff in Hok.
    destruct (known (url r) f0) eqn:Hk; [|reflexivity].
    apply known_In in Hk. apply Hf0 in Hk. apply known_In in Hk.
    rewrite Hk in Hok. discriminate.
  - destruct e as [i|l msg|a]; cbn [app cycles_fresh] in Hok;
      try (apply (IH f s Hok Hf0 Hfs)).
    destruct a; try (apply (IH f s Hok Hf0 Hfs)).
    + apply (IH s s Hok).
      * intros x Hx. apply Hfs, Hf0, Hx.
      * apply incl_refl.
    + apply andb_true_iff in Hok. destruct Hok as [_ Hok].
      apply (IH f _ Hok Hf0). intros x Hx. apply in_or_app. left.
      apply Hfs, Hx.
Qed.

Lemma cycles_fresh_split (t1 t2 t3 : trace) (p : string) (r : Request) :
  cycles_fresh [] [] (t1 ++ Act (GetRequests p) :: t2
                      ++ Act (ResponseBody r) :: t3) = true ->
  ~ In (url r) (read_urls t1).
Proof.
  intros Hok Hin. rewrite cycles_fresh_app in Hok.
  apply andb_true_iff in Hok. destruct Hok as [_ Hok].
  cbn [cycles_fresh] in Hok.
  assert (Hk : known (url r) (snd (cycle_state [] [] t1)) = false).
  { apply (cycles_fresh_later _ _ _ _ _ _ Hok); apply incl_refl. }
  rewrite cycle_state_seen in Hk. cbn [app] in Hk.
  apply known_In in Hin. rewrite Hin in Hk. discriminate.
Qed.

Lemma for_each_request_rule_in (step : Request -> run -> ctl run)
  (P : run -> Prop) (Q : ctl run -> Prop) (rs : list Request) :
  (forall r st, In r rs -> P st ->
     match step r st with Next st' => P st' | c => Q c end) ->
  forall st, P st ->
    match for_each_request step rs st with Next st' => P st' | c => Q c end.
Proof.
  induction rs as [|r rs IH]; intros Hstep st HP; cbn [for_each_request].
  - exact HP.
  - pose proof (Hstep r st (or_introl eq_refl) HP) as Hr.
    destruct (step r st) as [st'|st'|e st']; [|exact Hr..].
    apply IH; [|exact Hr].
    intros r' st0 Hin. apply Hstep. right. exact Hin.
Qed.

Lemma yield_users_urls (env : Env) (rs : list json) (st : run) :
  urls (state_of (Search.yield_users env rs st)) = urls st.
Proof.
  revert st. induction rs as [|r rs IH]; intros st; cbn [Search.yield_users];
    [reflexivity|].
  destruct (TikTokUser.User_of_data env r) as [logs [u|e]]; [|reflexivity].
  rewrite IH. reflexivity.
Qed.

Lemma yield_videos_urls (rs : list json) (st : run) :
  urls (state_of (Search.yield_videos rs st)) = urls st.
Proof.
  revert st. induction rs as [|r rs IH]; intros st; cbn [Search.yield_videos];
    [reflexivity|].
  rewrite IH. reflexivity.
Qed.

Lemma hand_out_urls (env : Env) (obj_type : string) (m : list (string * json))
  (st : run) :
  urls (state_of (Search.hand_out env obj_type m st)) = urls st.
Proof.
  unfold Search.hand_out, Search.yield_list.
  destruct (String.eqb obj_type "user").
  - destruct (py_iter (dict_get_default "user_list" m (JArr []))) as [rs|e].
    + pose proof (yield_users_urls env rs st) as Hu.
      destruct (Search.yield_users env rs st) as [st2|st2|e2 st2];
        cbn [state_of] in *; try exact Hu.
      destruct (String.eqb obj_type "item"); [|exact Hu].
      destruct (py_iter (dict_get_default "item_list" m (JArr []))) as [rs'|e];
        [|exact Hu].
      rewrite yield_videos_urls. exact Hu.
    + reflexivity.
  - destruct (String.eqb obj_type "item"); [|reflexivity].
    destruct (py_iter (dict_get_default "item_list" m (JArr []))) as [rs'|e];
      [|reflexivity].
    apply yield_videos_urls.
Qed.

Lemma search_response_urls (env : Env) (obj_type : string) (r : Request)
  (st : run) :
  urls (state_of (Search.search_response env obj_type r st)) =
  urls st ++ [url r].
Proof.
  unfold Search.search_response.
  destruct (get_response_body r) as [text|e]; [|reflexivity].
  destruct (json_loads env text) as [[| | | | | |m]|]; try reflexivity.
  destruct (py_eq_str (dict_get_default "type" m JNull) "verify");
    [reflexivity|].
  match goal with |- context [Search.hand_out env obj_type m ?s] =>
    pose proof (hand_out_urls env obj_type m s) as Hu;
    destruct (Search.hand_out env obj_type m s) as [st3|st3|e3 st3]
  end; cbn [state_of] in *; try exact Hu.
  destruct (py_eq_int (dict_get_default "has_more" m (JInt 0)) 0); exact Hu.
Qed.

(** One pass over a fresh request keeps the cycle-by-cycle reading. *)
Lemma search_response_fresh (env : Env) (obj_type : string) (F : list string)
  (r : Request) (st : run) :
  known (url r) F = false ->
  cycles_fresh [] [] (emitted st) = true /\
  cycle_state [] [] (emitted st) = (F, urls st) ->
  let c := Search.search_response env obj_type r st in
  cycles_fresh [] [] (emitted (state_of c)) = true /\
  cycle_state [] [] (emitted (state_of c)) = (F, urls (state_of c)).
Proof.
  intros Hr [Hok Hstate] c. subst c.
  destruct (search_response_shape env obj_type r st) as [d [Hd Hem]].
  destruct (calm_cycle F (urls st ++ [url r]) d Hd) as [Hdok Hdstate].
  rewrite Hem, search_response_urls.
  rewrite cycles_fresh_app, cycle_state_app, Hstate, Hok.
  cbn [fst snd cycles_fresh cycle_state andb]. rewrite Hr, Hdok, Hdstate.
  split; reflexivity.
Qed.

Lemma search_loop_fresh (env : Env) (fuel : nat) (h : trace)
  (path obj_type : string) (count : Z) (st : run) :
  cycles_fresh [] [] (emitted st) = true ->
  snd (cycle_state [] [] (emitted st)) = urls st ->
  cycles_fresh [] []
    (fst (Search.search_loop env fuel h path obj_type count st)) = true.
Proof.
  revert st. induction fuel as [|fuel IH]; intros st Hok Hseen;
    cbn [Search.search_loop];
    destruct (amount_yielded st <? count); try exact Hok.
  set (st1 := emit st [Act RequestDelay; Act (GetRequests path)]).
  assert (H1 : cycles_fresh [] [] (emitted st1) = true /\
               cycle_state [] [] (emitted st1) = (urls st1, urls st1)).
  { cbn [st1 emit emitted urls].
    rewrite cycles_fresh_app, cycle_state_app, Hok.
    destruct (cycle_state [] [] (emitted st)) as [f s]. cbn in Hseen. subst s.
    split; reflexivity. }
  pose proof (for_each_request_rule_in (Search.search_response env obj_type)
                (fun s => cycles_fresh [] [] (emitted s) = true /\
                          cycle_state [] [] (emitted s) = (urls st1, urls s))
                (fun c => cycles_fresh [] [] (emitted (state_of c)) = true)
                (Search.fresh_requests (urls st1)
                   (get_requests env (h ++ emitted st1) path))) as Hrule.
  match type of Hrule with ?A -> _ => assert (Hstep : A) end.
  { intros r s Hin Hs.
    assert (Hr : known (url r) (urls st1) = false).
    { unfold Search.fresh_requests in Hin. apply filter_In in Hin.
      destruct Hin as [_ Hin]. apply negb_true_iff in Hin. exact Hin. }
    pose proof (search_response_fresh env obj_type (urls st1) r s Hr Hs) as Hc.
    cbv zeta in Hc.
    destruct (Search.search_response env obj_type r s); cbn [state_of] in Hc;
      [exact Hc|exact (proj1 Hc)..]. }
  specialize (Hrule Hstep st1 H1).
  destruct (for_each_request _ _ st1) as [st2|st2|e st2];
    [|exact Hrule..].
  destruct Hrule as [Hok2 Hstate2].
  set (st3 := emit st2 _).
  assert (H3 : cycles_fresh [] [] (emitted st3) = true /\
               snd (cycle_state [] [] (emitted st3)) = urls st3).
  { cbn [st3 emit emitted urls].
    rewrite cycles_fresh_app, cycle_state_app, Hok2, Hstate2.
    split; reflexivity. }
  destruct (wait_until_not_skeleton_or_captcha env _ _);
    [exact (proj1 H3)|].
  apply IH; [exact (proj1 H3)|exact (proj2 H3)].
Qed.

(** X1.  In every run of [Search.search_type], a response read after a
    call of [get_requests] has an address that no response read before
    that call had: a request captured again in a later cycle is not
    processed again. *)
Theorem search_never_reads_earlier_address :
  forall (env : Env) (fuel : nat) (h : trace) (search_term : json)
         (obj_type : string) (count : Z) (t1 t2 t3 : trace) (p : string)
         (r : Request),
    fst (Search.search_type env fuel h search_term obj_type count) =
      t1 ++ Act (GetRequests p) :: t2 ++ Act (ResponseBody r) :: t3 ->
    ~ In (url r) (read_urls t1).
Proof.
  intros env fuel h search_term obj_type count t1 t2 t3 p r Hout.
  apply (cycles_fresh_split t1 t2 t3 p r). rewrite <- Hout.
  unfold Search.search_type.
  destruct (if String.eqb obj_type "user" then _ else _)
    as [[subdomain subpath]|]; [|reflexivity].
  destruct (wait_for_content_or_captcha env _ _); [reflexivity|].
  apply search_loop_fresh; reflexivity.
Qed.

(** ** Pacing *)

Lemma paced_calm (b : bool) (d : trace) :
  Forall (fun e => is_get_requests e = false) d -> paced b d = true.
Proof.
  intros Hd. revert b. induction Hd as [|e d He _ IH]; intros b; [reflexivity|].
  destruct e as [i|l msg|[]]; cbn [paced]; try apply IH. discriminate.
Qed.

Lemma paced_app_calm (b : bool) (t d : trace) :
  Forall (fun e => is_get_requests e = false) d ->
  paced b (t ++ d) = paced b t.
Proof.
  intros Hd. revert b. induction t as [|e t IH]; intros b.
  - cbn [app]. rewrite (paced_calm b d Hd). reflexivity.
  - destruct e as [i|l msg|[]]; cbn [app paced]; rewrite ?IH; reflexivity.
Qed.

Lemma paced_app_cycle (b : bool) (t d : trace) (p : string) :
  paced b (t ++ Act RequestDelay :: Act (GetRequests p) :: d) =
  paced b t && paced false d.
Proof.
  revert b. induction t as [|e t IH]; intros b; [reflexivity|].
  destruct e as [i|l msg|[]]; cbn [app paced]; rewrite ?IH, ?andb_assoc;
    reflexivity.
Qed.

Lemma paced_prefix (b : bool) (t d : trace) :
  paced b (t ++ d) = true -> paced b t = true.
Proof.
  revert b. induction t as [|e t IH]; intros b; [reflexivity|].
  destruct e as [i|l msg|[]]; cbn [app paced]; try apply IH.
  intros H. apply andb_true_iff in H. destruct H as [-> H].
  apply (IH _ H).
Qed.

Lemma paced_split (b : bool) (t1 t2 : trace) (p : string) :
  paced b (t1 ++ Act (GetRequests p) :: t2) = true ->
  (t1 = [] /\ b = true) \/ exists t0, t1 = t0 ++ [Act RequestDelay].
Proof.
  revert b. induction t1 as [|e t1 IH]; intros b H.
  - left. cbn [app paced] in H. apply andb_true_iff in H. tauto.
  - right.
    assert (Hcase : forall b', paced b' (t1 ++ Act (GetRequests p) :: t2) = true ->
                      (b' = true -> e = Act RequestDelay) ->
                      exists t0, e :: t1 = t0 ++ [Act RequestDelay]).
    { intros b' H' Hb'. destruct (IH b' H') as [[-> Hb]|[t0 ->]].
      - exists []. rewrite (Hb' Hb). reflexivity.
      - exists (e :: t0). reflexivity. }
    destruct e as [i|l msg|a]; cbn [app paced] in H;
      try (apply (Hcase false H); discriminate).
    destruct a; try (apply (Hcase false H); discriminate).
    + apply andb_true_iff in H. destruct H as [_ H].
      apply (Hcase false H). discriminate.
    + apply (Hcase true H). reflexivity.
Qed.

Lemma no_act_no_get_requests (d : trace) :
  no_act d -> Forall (fun e => is_get_requests e = false) d.
Proof.
  intros Hd. induction Hd as [|e d He _ IH]; constructor; [|exact IH].
  destruct e; [reflexivity|reflexivity|discriminate].
Qed.

Lemma pass_no_get_requests (r : Request) (d : trace) :
  no_act d ->
  Forall (fun e => is_get_requests e = false) (Act (ResponseBody r) :: d).
Proof.
  intros Hd. constructor; [reflexivity|apply no_act_no_get_requests, Hd].
Qed.

Lemma search_loop_paced (env : Env) (fuel : nat) (h : trace)
  (path obj_type : string) (count : Z) (st : run) :
  paced false (emitted st) = true ->
  paced false (fst (Search.search_loop env fuel h path obj_type count st)) = true.
Proof.
  revert st. induction fuel as [|fuel IH]; intros st Hst;
    cbn [Search.search_loop];
    destruct (amount_yielded st <? count); try exact Hst.
  set (st1 := emit st [Act RequestDelay; Act (GetRequests path)]).
  assert (H1 : paced false (emitted st1) = true).
  { cbn [st1 emit emitted]. rewrite paced_app_cycle, Hst. reflexivity. }
  pose proof (for_each_request_rule (Search.search_response env obj_type)
                (fun s => paced false (emitted s) = true)
                (fun c => paced false (emitted (state_of c)) = true)) as Hrule.
  match type of Hrule with ?A -> _ => assert (Hstep : A) end.
  { intros r s Hs.
    destruct (search_response_shape env obj_type r s) as [d [Hd Hem]].
    assert (Hc : paced false
                   (emitted (state_of (Search.search_response env obj_type r s)))
                 = true).
    { rewrite Hem, paced_app_calm; [exact Hs|apply pass_no_get_requests, Hd]. }
    destruct (Search.search_response env obj_type r s); exact Hc. }
  specialize (Hrule Hstep
                (Search.fresh_requests (urls st1)
                   (get_requests env (h ++ emitted st1) path)) st1 H1).
  destruct (for_each_request _ _ st1) as [st2|st2|e st2]; [|exact Hrule..].
  set (st3 := emit st2 _).
  assert (H3 : paced false (emitted st3) = true).
  { cbn [st3 emit emitted]. rewrite paced_app_calm; [exact Hrule|].
    repeat constructor. }
  destruct (wait_until_not_skeleton_or_captcha env _ _); [exact H3|].
  apply IH. exact H3.
Qed.

(** X2.  In every run of [Search.search_type], each call of
    [get_requests] comes right after a rate-limiter delay. *)
Theorem search_delays_before_each_capture :
  forall (env : Env) (fuel : nat) (h : trace) (search_term : json)
         (obj_type : string) (count : Z) (t1 t2 : trace) (p : string),
    fst (Search.search_type env fuel h search_term obj_type count) =
      t1 ++ Act (GetRequests p) :: t2 ->
    exists t0, t1 = t0 ++ [Act RequestDelay].
Proof.
  intros env fuel h search_term obj_type count t1 t2 p Hout.
  assert (Hpaced : paced false
            (fst (Search.search_type env fuel h search_term obj_type count))
          = true).
  { unfold Search.search_type.
    destruct (if String.eqb obj_type "user" then _ else _)
      as [[subdomain subpath]|]; [|reflexivity].
    destruct (wait_for_content_or_captcha env _ _); [reflexivity|].
    apply search_loop_paced. reflexivity. }
  rewrite Hout in Hpaced.
  destruct (paced_split _ _ _ _ Hpaced) as [[_ Hb]|Ht0];
    [discriminate|exact Ht0].
Qed.

Lemma paced_any_path (b : bool) (t : trace) (p q : string) :
  paced b (t ++ [Act (GetRequests p)]) = paced b (t ++ [Act (GetRequests q)]).
Proof.
  revert b. induction t as [|e t IH]; intros b; [reflexivity|].
  destruct e as [i|l msg|[]]; cbn [app paced]; rewrite ?(IH _); reflexivity.
Qed.

Lemma videos_loop_paced (env : Env) (fuel : nat) (h : trace) (self : User)
  (count n : Z) (st : run) (pre rest : trace) :
  emitted st = pre ++ rest ->
  paced true (rest ++ [Act (GetRequests EmptyString)]) = true ->
  exists rest',
    fst (TikTokUser.videos_loop env fuel h self count n st) = pre ++ rest' /\
    paced true rest' = true.
Proof.
  revert n st rest. induction fuel as [|fuel IH]; intros n st rest Hem Hrest;
    cbn [TikTokUser.videos_loop];
    destruct (amount_yielded st <? count);
    try (exists rest; split; [exact Hem|exact (paced_prefix _ _ _ Hrest)]).
  destruct (TikTokUser.videos_path env self n) as [path|];
    [|exists rest; split; [exact Hem|exact (paced_prefix _ _ _ Hrest)]].
  set (st1 := emit st [Act (GetRequests path)]).
  assert (H1 : emitted st1 = pre ++ (rest ++ [Act (GetRequests path)]) /\
               paced true (rest ++ [Act (GetRequests path)]) = true).
  { split; [cbn [st1 emit emitted]; rewrite Hem, app_assoc; reflexivity|].
    rewrite (paced_any_path true rest path EmptyString). exact Hrest. }
  pose proof (for_each_request_rule (TikTokUser.videos_response env n)
                (fun s => exists rest0, emitted s = pre ++ rest0 /\
                                        paced true rest0 = true)
                (fun c => exists rest0, emitted (state_of c) = pre ++ rest0 /\
                                        paced true rest0 = true)) as Hrule.
  match type of Hrule with ?A -> _ => assert (Hstep : A) end.
  { intros r s [rest0 [Hs Hp]].
    destruct (videos_response_shape env n r s) as [d [Hd Hem']].
    assert (Hc : exists rest1,
               emitted (state_of (TikTokUser.videos_response env n r s))
               = pre ++ rest1 /\ paced true rest1 = true).
    { exists (rest0 ++ Act (ResponseBody r) :: d).
      split; [rewrite Hem', Hs, app_assoc; reflexivity|].
      rewrite paced_app_calm; [exact Hp|apply pass_no_get_requests, Hd]. }
    destruct (TikTokUser.videos_response env n r s); exact Hc. }
  specialize (Hrule Hstep (get_requests env (h ++ emitted st1) path) st1
                (ex_intro _ _ H1)).
  destruct (for_each_request _ _ st1) as [st2|st2|e st2]; [|exact Hrule..].
  destruct Hrule as [rest2 [Hem2 Hp2]].
  set (st3 := emit st2 _).
  assert (H3 : emitted st3 =
               pre ++ (rest2 ++ [Act (ScrollToBottom None);
                                 Act (WaitNotSkeleton "video-skeleton-container")])
               /\ paced true (rest2 ++ [Act (ScrollToBottom None);
                                 Act (WaitNotSkeleton "video-skeleton-container")])
                  = true).
  { split; [cbn [st3 emit emitted]; rewrite Hem2, app_assoc; reflexivity|].
    rewrite paced_app_calm; [exact Hp2|repeat constructor]. }
  destruct (wait_until_not_skeleton_or_captcha env _ _);
    [eexists; exact H3|].
  apply (IH _ _ ((rest2 ++ [Act (ScrollToBottom None);
                            Act (WaitNotSkeleton "video-skeleton-container")])
                 ++ [Act RequestDelay])).
  - change (emitted (emit st3 [Act RequestDelay]))
      with (emitted st3 ++ [Act RequestDelay]).
    rewrite (proj1 H3). symmetry. apply app_assoc.
  - rewrite <- app_assoc. cbn [app].
    rewrite paced_app_cycle, (proj2 H3). reflexivity.
Qed.

(** X3.  In every run of [User.videos], the first call of
    [get_requests] follows the navigation and the first wait, and every
    later one comes right after a rate-limiter delay. *)
Theorem videos_delays_before_later_captures :
  forall (env : Env) (fuel : nat) (h : trace) (self : User) (count : Z)
         (t1 t2 : trace) (p : string),
    fst (TikTokUser.videos env fuel h self count) =
      t1 ++ Act (GetRequests p) :: t2 ->
    t1 = [Act (Goto ("https://www.tiktok.com/@" ++ py_str env (username self))%string);
          Act (WaitForContent "user-post-item")] \/
    exists t0, t1 = t0 ++ [Act RequestDelay].
Proof.
  intros env fuel h self count t1 t2 p Hout.
  set (pre := [Act (Goto ("https://www.tiktok.com/@"
                          ++ py_str env (username self))%string);
               Act (WaitForContent "user-post-item")]) in *.
  assert (Hrun : exists rest,
             fst (TikTokUser.videos env fuel h self count) = pre ++ rest /\
             paced true rest = true).
  { unfold TikTokUser.videos. fold pre.
    destruct (wait_for_content_or_captcha env _ _);
      [exists []; split; reflexivity|].
    apply (videos_loop_paced env fuel h self count 1 _ pre []); reflexivity. }
  destruct Hrun as [rest [Hrest Hp]]. rewrite Hout in Hrest.
  destruct t1 as [|e1 [|e2 t1]]; try discriminate.
  injection Hrest as -> -> Hrest.
  rewrite <- Hrest in Hp.
  destruct (paced_split _ _ _ _ Hp) as [[-> _]|[t0 ->]].
  - left. reflexivity.
  - right. exists (Act (Goto ("https://www.tiktok.com/@"
                               ++ py_str env (username self))%string)
                   :: Act (WaitForContent "user-post-item") :: t0).
    reflexivity.
Qed.

(** ** What a search for items hands out *)

Lemma responses_of_app (t t' : trace) :
  responses_of (t ++ t') = responses_of t ++ responses_of t'.
Proof.
  induction t as [|e t IH]; [reflexivity|].
  destruct e as [i|l msg|[]]; cbn [app responses_of]; rewrite ?IH; reflexivity.
Qed.

Lemma no_act_responses (d : trace) : no_act d -> responses_of d = [].
Proof.
  intros Hd. induction Hd as [|e d He _ IH]; [reflexivity|].
  destruct e as [i|l msg|a]; [exact IH|exact IH|discriminate].
Qed.

Lemma items_of_yields (rs : list json) :
  items_of (map (fun v => Yield (video v)) rs) = map video rs.
Proof. induction rs as [|r rs IH]; [reflexivity|]. cbn. now rewrite IH. Qed.

Lemma yield_videos_exact (rs : list json) (st : run) :
  Search.yield_videos rs st =
    Next {| urls := urls st;
            amount_yielded := amount_yielded st + Z.of_nat (List.length rs);
            emitted := emitted st ++ map (fun v => Yield (video v)) rs |}.
Proof.
  revert st. induction rs as [|r rs IH]; intros st; cbn [Search.yield_videos].
  - destruct st. cbn. rewrite app_nil_r, Z.add_0_r. reflexivity.
  - rewrite IH. cbn [urls amount_yielded emitted]. f_equal. f_equal.
    + cbn [List.length]. lia.
    + rewrite <- app_assoc. reflexivity.
Qed.

(** A pass of a search for items over a response hands out the videos
    of that response and reads nothing else. *)
Lemma search_item_pass (env : Env) (r : Request) (st : run) :
  let c := Search.search_response env "item" r st in
  items_of (emitted (state_of c)) =
    items_of (emitted st) ++ response_videos env r /\
  responses_of (emitted (state_of c)) = responses_of (emitted st) ++ [r].
Proof.
  intros c. subst c.
  destruct (search_response_shape env "item" r st) as [d [Hd Hem]].
  split.
  2: { rewrite Hem, responses_of_app. cbn [responses_of].
       rewrite (no_act_responses d Hd). reflexivity. }
  clear d Hd Hem.
  unfold Search.search_response, response_videos, get_response_body.
  destruct (String.eqb (body r) EmptyString).
  { cbn. rewrite items_of_app. reflexivity. }
  destruct (json_loads env (body r)) as [[| | | | | |m]|];
    try (cbn; rewrite items_of_app; reflexivity).
  destruct (py_eq_str (dict_get_default "type" m JNull) "verify").
  { cbn. rewrite items_of_app. reflexivity. }
  unfold Search.hand_out, Search.yield_list.
  change (String.eqb "item" "user") with false.
  change (String.eqb "item" "item") with true. cbv iota.
  destruct (py_iter (dict_get_default "item_list" m (JArr []))) as [rs|e].
  - rewrite yield_videos_exact.
    destruct (py_eq_int (dict_get_default "has_more" m (JInt 0)) 0);
      cbn [state_of emit emitted];
      rewrite !items_of_app, ?items_of_yields; cbn [items_of];
      rewrite ?app_nil_r; reflexivity.
  - cbn. rewrite items_of_app. reflexivity.
Qed.

Lemma items_follow_emit (env : Env) (st : run) (evs : trace) :
  no_response evs -> items_of evs = [] ->
  items_of (emitted st) =
    flat_map (response_videos env) (responses_of (emitted st)) ->
  items_of (emitted (emit st evs)) =
    flat_map (response_videos env) (responses_of (emitted (emit st evs))).
Proof.
  intros Hno Hitems Hst. cbn [emit emitted].
  rewrite items_of_app, responses_of_app, Hitems, app_nil_r, Hst.
  assert (Hr : responses_of evs = []).
  { clear -Hno. induction evs as [|e evs IH]; [reflexivity|].
    assert (Hno' : no_response evs).
    { intros r Hin. apply (Hno r). right. exact Hin. }
    destruct e as [i|l msg|[]]; cbn [responses_of]; try apply (IH Hno').
    exfalso. apply (Hno r). left. reflexivity. }
  rewrite Hr, app_nil_r. reflexivity.
Qed.

Lemma search_items_loop (env : Env) (fuel : nat) (h : trace) (path : string)
  (count : Z) (st : run) :
  items_of (emitted st) =
    flat_map (response_videos env) (responses_of (emitted st)) ->
  let out := fst (Search.search_loop env fuel h path "item" count st) in
  items_of out = flat_map (response_videos env) (responses_of out).
Proof.
  revert st. induction fuel as [|fuel IH]; intros st Hst;
    cbn [Search.search_loop];
    destruct (amount_yielded st <? count); try exact Hst.
  set (st1 := emit st [Act RequestDelay; Act (GetRequests path)]).
  assert (H1 : items_of (emitted st1) =
               flat_map (response_videos env) (responses_of (emitted st1))).
  { apply items_follow_emit; [|reflexivity|exact Hst].
    apply no_response_calls. repeat constructor; discriminate. }
  pose proof (for_each_request_rule (Search.search_response env "item")
                (fun s => items_of (emitted s) =
                   flat_map (response_videos env) (responses_of (emitted s)))
                (fun c => items_of (emitted (state_of c)) =
                   flat_map (response_videos env)
                     (responses_of (emitted (state_of c))))) as Hrule.
  match type of Hrule with ?A -> _ => assert (Hstep : A) end.
  { intros r s Hs. destruct (search_item_pass env r s) as [Hi Hr].
    assert (Hc : items_of
                   (emitted (state_of (Search.search_response env "item" r s)))
                 = flat_map (response_videos env)
                     (responses_of
                        (emitted (state_of
                                    (Search.search_response env "item" r s))))).
    { rewrite Hi, Hr, flat_map_app, Hs. cbn [flat_map].
      rewrite app_nil_r. reflexivity. }
    destruct (Search.search_response env "item" r s); exact Hc. }
  specialize (Hrule Hstep
                (Search.fresh_requests (urls st1)
                   (get_requests env (h ++ emitted st1) path)) st1 H1).
  destruct (for_each_request _ _ st1) as [st2|st2|e st2]; [|exact Hrule..].
  set (st3 := emit st2 _).
  assert (H3 : items_of (emitted st3) =
               flat_map (response_videos env) (responses_of (emitted st3))).
  { apply items_follow_emit; [|reflexivity|exact Hrule].
    apply no_response_calls. repeat constructor; discriminate. }
  destruct (wait_until_not_skeleton_or_captcha env _ _); [exact H3|].
  apply IH. exact H3.
Qed.

(** X4.  A run of [Search.videos] hands out exactly the elements of the
    item lists of the responses it reads, response after response and
    in the order of each list, however it ends: nothing is dropped,
    reordered or added. *)
Theorem search_videos_yields_item_lists :
  forall (env : Env) (fuel : nat) (h : trace) (search_term : json) (count : Z),
    items_of (fst (Search.videos env fuel h search_term count)) =
    flat_map (response_videos env)
      (responses_of (fst (Search.videos env fuel h search_term count))).
Proof.
  intros env fuel h search_term count.
  unfold Search.videos, Search.search_type.
  change (String.eqb "item" "user") with false.
  change (String.eqb "item" "item") with true. cbv iota.
  destruct (wait_for_content_or_captcha env _ _); [reflexivity|].
  apply search_items_loop. reflexivity.
Qed.

(** ** [searched_urls] has no effect *)

Lemma videos_response_same (env : Env) (n : Z) (r : Request) (st st' : run) :
  same_but_urls st st' ->
  same_ctl (TikTokUser.videos_response env n r st)
           (TikTokUser.videos_response env n r st').
Proof.
  intros [Ha He]. unfold TikTokUser.videos_response, TikTokUser.hand_out.
  rewrite Ha, He.
  destruct (get_response_body r) as [text|e]; [|repeat split].
  destruct (TikTokUser.decode env n text) as [[|page videos]|e];
    [repeat split| |repeat split].
  destruct (py_len videos) as [k|e]; [|repeat split].
  destruct (py_iter videos) as [vs|e]; [|repeat split].
  cbv zeta. cbn [urls amount_yielded emitted].
  destruct (TikTokUser.has_more_of n page) as [hm|e]; [|repeat split].
  destruct (truthy hm); repeat split.
Qed.

Lemma for_each_request_same (step : Request -> run -> ctl run) :
  (forall r st st', same_but_urls st st' -> same_ctl (step r st) (step r st')) ->
  forall rs st st', same_but_urls st st' ->
    same_ctl (for_each_request step rs st) (for_each_request step rs st').
Proof.
  intros Hstep rs. induction rs as [|r rs IH]; intros st st' Hsame;
    cbn [for_each_request]; [exact Hsame|].
  specialize (Hstep r st st' Hsame).
  destruct (step r st) as [s|s|e s], (step r st') as [s'|s'|e' s'];
    cbn [same_ctl] in Hstep; try contradiction; try exact Hstep.
  apply IH. exact Hstep.
Qed.

Lemma videos_loop_same (env : Env) (fuel : nat) (h : trace) (self : User)
  (count n : Z) (st st' : run) :
  same_but_urls st st' ->
  TikTokUser.videos_loop env fuel h self count n st =
  TikTokUser.videos_loop env fuel h self count n st'.
Proof.
  revert n st st'. induction fuel as [|fuel IH]; intros n st st' [Ha He];
    cbn [TikTokUser.videos_loop]; rewrite Ha, He;
    destruct (amount_yielded st' <? count); try reflexivity.
  destruct (TikTokUser.videos_path env self n) as [path|]; [|reflexivity].
  set (st1 := emit st [Act (GetRequests path)]).
  set (st1' := emit st' [Act (GetRequests path)]).
  assert (H1 : same_but_urls st1 st1').
  { split; cbn; [exact Ha|rewrite He; reflexivity]. }
  rewrite (proj2 H1).
  pose proof (for_each_request_same (TikTokUser.videos_response env n)
                (videos_response_same env n)
                (get_requests env (h ++ emitted st1') path)
                st1 st1' H1) as Hbatch.
  destruct (for_each_request _ _ st1) as [s|s|e s],
           (for_each_request _ _ st1') as [s'|s'|e' s'];
    cbn [same_ctl] in Hbatch; try contradiction.
  - set (s3 := emit s _). set (s3' := emit s' _).
    assert (H3 : same_but_urls s3 s3').
    { destruct Hbatch as [Ha2 He2].
      split; cbn; [exact Ha2|rewrite He2; reflexivity]. }
    rewrite (proj2 H3).
    destruct (wait_until_not_skeleton_or_captcha env _ _); [reflexivity|].
    apply IH. destruct H3 as [Ha3 He3].
    split; cbn [emit emitted amount_yielded]; [exact Ha3|rewrite He3; reflexivity].
  - destruct Hbatch as [_ ->]. reflexivity.
  - destruct Hbatch as [-> [_ ->]]. reflexivity.
Qed.

(** X5.  [User.videos] never consults [searched_urls]: from any state of
    its loop, replacing the list by any other list gives the same run,
    event for event. *)
Theorem videos_ignores_searched_urls :
  forall (env : Env) (fuel : nat) (h : trace) (self : User) (count n : Z)
         (st : run) (searched_urls : list string),
    TikTokUser.videos_loop env fuel h self count n st =
    TikTokUser.videos_loop env fuel h self count n
      {| urls := searched_urls; amount_yielded := amount_yielded st;
         emitted := emitted st |}.
Proof.
  intros. apply videos_loop_same. split; reflexivity.
Qed.

(** ** [User.liked]: what its counter counts *)

Lemma liked_yields_exact (vs : list json) (amount : Z) (out : trace) :
  TikTokUser.liked_yields vs amount out =
    (amount + Z.of_nat (List.length vs),
     out ++ map (fun v => Yield (video v)) vs).
Proof.
  revert amount out. induction vs as [|v vs IH]; intros amount out;
    cbn [TikTokUser.liked_yields].
  - rewrite app_nil_r, Z.add_0_r. reflexivity.
  - rewrite IH. f_equal.
    + cbn [List.length]. lia.
    + rewrite <- app_assoc. reflexivity.
Qed.

Lemma yielded_no_items (t : trace) : items_of t = [] -> yielded t = 0.
Proof.
  induction t as [|e t IH]; [reflexivity|].
  destruct e; cbn [items_of yielded]; try exact IH. discriminate.
Qed.

Lemma liked_loop_counter (env : Env) (fuel : nat) (h : trace) (self : User)
  (count : Z) (cursor : json) (first : bool) (amount : Z) (out res : trace) :
  amount = 2 * yielded out ->
  TikTokUser.liked_loop env fuel h self count cursor first amount out
    = (res, Returned) ->
  count <= 2 * yielded res \/
  (exists out', res = out' ++ [Log Info TikTokUser.no_more_tiktoks]) \/
  (exists out', res = out' ++ [Log Error TikTokUser.likes_private]) \/
  (exists out' id sec cur, res = out' ++ [Act (GetData id sec cur)]).
Proof.
  revert cursor first amount out.
  induction fuel as [|fuel IH]; intros cursor first amount out Hinv;
    cbn [TikTokUser.liked_loop];
    destruct (amount <? count) eqn:Hlt;
    try (intros Hrun; injection Hrun as <-; left;
         apply Z.ltb_ge in Hlt; lia);
    try discriminate.
  destruct (get_data env _ _ _ _) as [[| | | | | |m]|e]; try discriminate.
  destruct (dict_has "itemList" m).
  2: { cbn [negb]. intros Hrun. injection Hrun as <-. right. right.
       destruct first.
       - left. eexists. reflexivity.
       - right. eexists _, _, _, _. reflexivity. }
  cbn [negb].
  destruct (py_len _) as [n|e] eqn:Hlen; [|discriminate].
  destruct (py_iter _) as [vs|e] eqn:Hiter; [|discriminate].
  rewrite liked_yields_exact.
  destruct (negb (truthy (dict_get_default "hasMore" m (JBool false)))
            && negb first).
  - intros Hrun. injection Hrun as <-. right. left. eexists. reflexivity.
  - destruct (item (JObj m) "cursor") as [cursor'|e]; [|discriminate].
    apply IH.
    rewrite (py_len_iter _ _ _ Hlen Hiter), !yielded_app, yielded_map_yield.
    cbn [yielded]. lia.
Qed.

(** X6.  When a run of [User.liked] returns, either its counter reached
    the requested count, and the counter is twice the number of videos
    yielded, or the run ended at a response: a page after the first
    that said no more, or a response without "itemList", logged as
    private likes on the first page and silent on later ones. *)
Theorem liked_counts_every_video_twice :
  forall (env : Env) (fuel : nat) (h : trace) (self : User) (count : Z)
         (cursor : json) (out : trace),
    TikTokUser.liked env fuel h self count cursor = (out, Returned) ->
    count <= 2 * yielded out \/
    (exists out', out = out' ++ [Log Info TikTokUser.no_more_tiktoks]) \/
    (exists out', out = out' ++ [Log Error TikTokUser.likes_private]) \/
    (exists out' id sec cur, out = out' ++ [Act (GetData id sec cur)]).
Proof.
  intros env fuel h self count cursor out. unfold TikTokUser.liked.
  pose proof (resolve_no_items env h self) as Hno.
  destruct (TikTokUser.resolve env h self) as [out0 [self'|e|]];
    try discriminate.
  cbn [fst] in Hno. apply liked_loop_counter.
  rewrite (yielded_no_items _ Hno). reflexivity.
Qed.

Lemma liked_loop_extends (env : Env) (fuel : nat) (h : trace) (self : User)
  (count : Z) (cursor : json) (first : bool) (amount : Z) (out : trace) :
  exists d,
    fst (TikTokUser.liked_loop env fuel h self count cursor first amount out)
    = out ++ d.
Proof.
  revert cursor first amount out.
  induction fuel as [|fuel IH]; intros cursor first amount out;
    cbn [TikTokUser.liked_loop];
    destruct (amount <? count);
    try (exists []; rewrite app_nil_r; reflexivity).
  destruct (get_data env _ _ _ _) as [[| | | | | |m]|e];
    try (eexists; reflexivity).
  destruct (dict_has "itemList" m); cbn [negb].
  2: { destruct first; eexists; cbn [fst];
         rewrite <- ?app_assoc; reflexivity. }
  destruct (py_len _) as [n|e]; [|eexists; reflexivity].
  destruct (py_iter _) as [vs|e]; [|eexists; reflexivity].
  rewrite liked_yields_exact.
  destruct (negb (truthy (dict_get_default "hasMore" m (JBool false)))
            && negb first).
  - eexists. cbn [fst]. rewrite <- !app_assoc. reflexivity.
  - destruct (item (JObj m) "cursor") as [cursor'|e].
    + match goal with |- context [TikTokUser.liked_loop env fuel h self count
                                    cursor' false ?a ?o] =>
        destruct (IH cursor' false a o) as [d Hd] end.
      exists ([Act (GetData (user_id self) (sec_uid self) cursor)]
              ++ map (fun v => Yield (video v)) vs ++ d).
      rewrite Hd, <- !app_assoc. reflexivity.
    + eexists. cbn [fst]. rewrite <- !app_assoc. reflexivity.
Qed.

(** When the loop of [User.liked] runs once more, it starts by asking
    for the page at its cursor. *)
Lemma liked_loop_asks (env : Env) (fuel : nat) (h : trace) (self : User)
  (count : Z) (cursor : json) (first : bool) (amount : Z) (out : trace) :
  amount < count ->
  exists rest,
    fst (TikTokUser.liked_loop env (S fuel) h self count cursor first amount out)
    = out ++ Act (GetData (user_id self) (sec_uid self) cursor) :: rest.
Proof.
  intros Hlt.
  destruct (liked_loop_extends env (S fuel) h self count cursor first amount out)
    as [d Hd].
  revert Hd. cbn [TikTokUser.liked_loop].
  replace (amount <? count) with true by (symmetry; apply Z.ltb_lt; exact Hlt).
  destruct (get_data env _ _ _ _) as [[| | | | | |m]|e];
    try (intros _; exists []; reflexivity).
  destruct (dict_has "itemList" m); cbn [negb].
  2: { intros _. destruct first; eexists; cbn [fst];
         rewrite <- ?app_assoc; reflexivity. }
  destruct (py_len _) as [n|e]; [|intros _; exists []; reflexivity].
  destruct (py_iter _) as [vs|e]; [|intros _; exists []; reflexivity].
  rewrite liked_yields_exact.
  destruct (negb (truthy (dict_get_default "hasMore" m (JBool false)))
            && negb first).
  - intros _. eexists. cbn [fst]. rewrite <- !app_assoc. reflexivity.
  - destruct (item (JObj m) "cursor") as [cursor'|e].
    + intros _.
      match goal with |- context [TikTokUser.liked_loop env fuel h self count
                                    cursor' false ?a ?o] =>
        destruct (liked_loop_extends env fuel h self count cursor' false a o)
          as [d' Hd'] end.
      eexists. rewrite Hd', <- !app_assoc. reflexivity.
    + intros _. eexists. cbn [fst]. rewrite <- !app_assoc. reflexivity.
Qed.

(** X7.  On its first page [User.liked] does not look at "hasMore": when
    the first response has an item list and a cursor and the counter is
    still below the requested count, the run yields the videos of the
    page and asks for the next page with the cursor of the response. *)
Theorem liked_threads_cursor :
  forall (env : Env) (fuel : nat) (h out0 : trace) (self self' : User)
         (count : Z) (cursor cursor' items : json) (vs : list json)
         (m : list (string * json)),
    TikTokUser.resolve env h self = (out0, Done self') ->
    0 < count ->
    get_data env
      (h ++ out0 ++ [Act (GetData (user_id self') (sec_uid self') cursor)])
      (user_id self') (sec_uid self') cursor = Ok (JObj m) ->
    dict_get "itemList" m = Some items ->
    py_iter items = Ok vs ->
    dict_get "cursor" m = Some cursor' ->
    2 * Z.of_nat (List.length vs) < count ->
    exists rest,
      fst (TikTokUser.liked env (S (S fuel)) h self count cursor) =
        out0
        ++ Act (GetData (user_id self') (sec_uid self') cursor)
           :: map (fun v => Yield (video v)) vs
        ++ Act (GetData (user_id self') (sec_uid self') cursor') :: rest.
Proof.
  intros env fuel h out0 self self' count cursor cursor' items vs m
    Hres Hcount Hdata Hitems Hiter Hcursor Hbelow.
  unfold TikTokUser.liked. rewrite Hres.
  remember (S fuel) as fuel1 eqn:Hfuel. cbn [TikTokUser.liked_loop].
  replace (0 <? count) with true by (symmetry; apply Z.ltb_lt; exact Hcount).
  rewrite Hdata. unfold dict_has, dict_get_default. rewrite Hitems.
  cbn [negb]. rewrite (py_iter_len _ _ Hiter), Hiter, liked_yields_exact.
  rewrite andb_false_r, item_obj, Hcursor. subst fuel1.
  match goal with |- context [TikTokUser.liked_loop env (S fuel) h self' count
                                cursor' false ?a ?o] =>
    destruct (liked_loop_asks env fuel h self' count cursor' false a o)
      as [rest Hrest]; [lia|]
  end.
  exists rest. rewrite Hrest, <- !app_assoc. reflexivity.
Qed.

(** ** Users built from raw data *)

(** X8.  [User(data=...)] reads the identifiers from either raw shape
    and logs nothing when none of them is [None]: from the nested
    "user_info" shape (uid, sec_uid, unique_id), which wins when both
    shapes are present, and otherwise from the flat shape (id, secUid,
    uniqueId); the raw data is kept as [as_dict]. *)
Theorem user_of_data_shapes :
  forall (env : Env) (m : list (string * json)) (id sec name : json),
    is_none id = false -> is_none sec = false -> is_none name = false ->
    (forall info : json,
        dict_get "user_info" m = Some info ->
        item info "uid" = Ok id ->
        item info "sec_uid" = Ok sec ->
        item info "unique_id" = Ok name ->
        TikTokUser.User_of_data env (JObj m) =
          ([], Ok {| username := name; user_id := id; sec_uid := sec;
                     as_dict := Some (JObj m) |})) /\
    (dict_get "user_info" m = None ->
     dict_get "uniqueId" m = Some name ->
     dict_get "id" m = Some id ->
     dict_get "secUid" m = Some sec ->
     TikTokUser.User_of_data env (JObj m) =
       ([], Ok {| username := name; user_id := id; sec_uid := sec;
                  as_dict := Some (JObj m) |})).
Proof.
  intros env m id sec name Hid Hsec Hname. split.
  - intros info Hinfo Huid Hsecuid Hunique.
    unfold TikTokUser.User_of_data, TikTokUser.User_init,
      TikTokUser.extract_from_data, dict_has.
    cbn [is_none]. rewrite Hinfo, item_obj, Hinfo. cbn [bind].
    rewrite Huid. cbn [bind]. rewrite Hsecuid. cbn [bind]. rewrite Hunique.
    cbn [bind TikTokUser.update_id_sec_uid_username username user_id sec_uid
         as_dict].
    rewrite Hid, Hsec, Hname. reflexivity.
  - intros Hnone Hunique Hident Hsecuid.
    unfold TikTokUser.User_of_data, TikTokUser.User_init,
      TikTokUser.extract_from_data, dict_has.
    cbn [is_none]. rewrite Hnone, Hunique, !item_obj, Hident, Hsecuid, Hunique.
    cbn [bind TikTokUser.update_id_sec_uid_username username user_id sec_uid
         as_dict].
    rewrite Hid, Hsec, Hname. reflexivity.
Qed.

(** X9.  Raw data of neither known shape is not fatal: [User(data=...)]
    returns a user whose three identifiers are [None], keeps the data
    as [as_dict] and logs one error. *)
Theorem user_of_unknown_shape :
  forall (env : Env) (m : list (string * json)),
    dict_get "user_info" m = None ->
    dict_get "uniqueId" m = None ->
    snd (TikTokUser.User_of_data env (JObj m)) =
      Ok {| username := JNull; user_id := JNull; sec_uid := JNull;
            as_dict := Some (JObj m) |} /\
    exists msg, fst (TikTokUser.User_of_data env (JObj m)) = [Log Error msg].
Proof.
  intros env m Hinfo Hunique.
  unfold TikTokUser.User_of_data, TikTokUser.User_init,
    TikTokUser.extract_from_data, dict_has.
  cbn [is_none]. rewrite Hinfo, Hunique. cbn.
  split; [reflexivity|eexists; reflexivity].
Qed.

(** X10.  The nested shape is read without a default: when the
    "user_info" object lacks "uid", "sec_uid" or "unique_id",
    [User(data=...)] raises [KeyError] and logs nothing. *)
Theorem user_of_incomplete_info :
  forall (env : Env) (m info : list (string * json)),
    dict_get "user_info" m = Some (JObj info) ->
    dict_get "uid" info = None \/ dict_get "sec_uid" info = None \/
    dict_get "unique_id" info = None ->
    TikTokUser.User_of_data env (JObj m) = ([], Err KeyError).
Proof.
  intros env m info Hinfo Hmissing.
  unfold TikTokUser.User_of_data, TikTokUser.User_init,
    TikTokUser.extract_from_data, dict_has.
  cbn [is_none]. rewrite Hinfo, !item_obj, Hinfo. cbn [bind].
  rewrite !item_obj.
  destruct (dict_get "uid" info) as [uid|]; [|reflexivity].
  destruct (dict_get "sec_uid" info) as [sec|]; [|reflexivity].
  destruct (dict_get "unique_id" info) as [name|]; [|reflexivity].
  destruct Hmissing as [H|[H|H]]; discriminate.
Qed.

(** ** Attribute access *)

(** X11.  Reading [as_dict] on a user that has none fetches the profile
    info once, keeps it as [as_dict] and fills the three identifiers
    from its flat shape; any other missing attribute raises
    [AttributeError] without a fetch. *)
Theorem getattr_loads_profile :
  forall (env : Env) (h out : trace) (self : User) (m : list (string * json))
         (id sec name : json),
    TikTokUser.info env h self = (out, Ok (JObj m)) ->
    dict_get "user_info" m = None ->
    dict_get "uniqueId" m = Some name ->
    dict_get "id" m = Some id ->
    dict_get "secUid" m = Some sec ->
    is_none id = false -> is_none sec = false -> is_none name = false ->
    UserAccess.getattr env h self "as_dict" =
      (out, Ok ({| username := name; user_id := id; sec_uid := sec;
                   as_dict := Some (JObj m) |}, JObj m)) /\
    forall other : string,
      other <> "as_dict"%string ->
      UserAccess.getattr env h self other = ([], Err AttributeError).
Proof.
  intros env h out self m id sec name Hinfo Hnone Hunique Hident Hsecuid
    Hid Hsec Hname.
  split.
  - unfold UserAccess.getattr. cbn [String.eqb Ascii.eqb Bool.eqb andb].
    rewrite Hinfo.
    unfold TikTokUser.extract_from_data, dict_has.
    rewrite Hnone, Hunique, !item_obj, Hident, Hsecuid, Hunique.
    cbn [bind TikTokUser.update_id_sec_uid_username username user_id sec_uid
         as_dict].
    rewrite Hid, Hsec, Hname. cbn. rewrite app_nil_r. reflexivity.
  - intros other Hother. unfold UserAccess.getattr.
    destruct (String.eqb_spec other "as_dict"); [contradiction|reflexivity].
Qed.

(** ** Errors while resolving a user *)

(** X12.  When the search-by-username sequence ends by an exception
    before handing out a user of the same name, [__find_attributes]
    raises that exception, having done only what the search did: the
    profile info is not fetched. *)
Theorem find_attributes_search_error :
  forall (env : Env) (h evs : trace) (self : User) (e : exn),
    search_users env h (username self) = (evs, Raised e) ->
    no_match (username self) evs ->
    TikTokUser.find_attributes env h self = (without_items evs, Raised e).
Proof.
  intros env h evs self e Hsearch Hevs.
  unfold TikTokUser.find_attributes. rewrite Hsearch.
  rewrite (scan_users_exhausted _ _ Hevs). reflexivity.
Qed.

(** X13.  Whenever [User.info_full] returns a value, the username is a
    string, exactly one page was fetched, at the profile address of the
    quoted username, its bootstrap data decoded to an object whose
    [props.pageProps.statusCode] is not 404, and the value is
    [props.pageProps.userInfo]. *)
Theorem info_full_returns_user_info :
  forall (env : Env) (h : trace) (self : User) (value : json),
    snd (TikTokUser.info_full env h self) = Ok value ->
    exists (name text data : string) (user props user_props code : json),
      username self = JStr name /\
      fst (TikTokUser.info_full env h self) =
        [Act (HttpGet (TikTokUser.profile_url env name))] /\
      requests_get env
        (h ++ [Act (HttpGet (TikTokUser.profile_url env name))])
        (TikTokUser.profile_url env name) = Ok text /\
      extract_tag_contents env text = Ok data /\
      json_loads env data = Some user /\
      item user "props" = Ok props /\
      item props "pageProps" = Ok user_props /\
      item user_props "statusCode" = Ok code /\
      py_eq_int code 404 = false /\
      item user_props "userInfo" = Ok value.
Proof.
  intros env h self value. unfold TikTokUser.info_full.
  destruct (negb (truthy (username self))); [discriminate|].
  destruct (username self) as [| | | |name| |]; try discriminate.
  cbn [fst snd].
  destruct (requests_get env _ _) as [text|e] eqn:Hget; [|discriminate].
  cbn [bind].
  destruct (extract_tag_contents env text) as [data|e] eqn:Htag;
    [|discriminate].
  cbn [bind].
  destruct (json_loads env data) as [user|] eqn:Hloads; [|discriminate].
  destruct (item user "props") as [props|e] eqn:Hprops; [|discriminate].
  cbn [bind].
  destruct (item props "pageProps") as [user_props|e] eqn:Hpage; [|discriminate].
  cbn [bind].
  destruct (item user_props "statusCode") as [code|e] eqn:Hcode; [|discriminate].
  cbn [bind].
  destruct (py_eq_int code 404) eqn:H404; [discriminate|].
  intros Hvalue.
  exists name, text, data, user, props, user_props, code.
  repeat split; assumption.
Qed.

(** ** The branch that is never taken *)

(** X14.  [pull_method] is 'browser' when the loop of
    [Search.search_type] starts and no pass through the browser branch
    changes it: whatever the branch for direct requests (lines 144-170)
    would do, it is never executed, and the loop behaves as the loop
    without it. *)
Theorem direct_requests_branch_is_dead :
  forall (env : Env) (direct : trace -> string -> run -> SearchFull.branch_end)
         (fuel : nat) (h : trace) (path obj_type : string) (count : Z)
         (st : run),
    SearchFull.search_loop env direct fuel h path obj_type count "browser" st =
    Search.search_loop env fuel h path obj_type count st.
Proof.
  intros env direct fuel h path obj_type count. induction fuel as [|fuel IH];
    intros st; cbn [SearchFull.search_loop Search.search_loop];
    destruct (amount_yielded st <? count); try reflexivity.
  change (String.eqb "browser" "browser") with true. cbv iota.
  destruct (for_each_request _ _ _) as [st2|st2|e st2]; try reflexivity.
  destruct (wait_until_not_skeleton_or_captcha env _ _); [reflexivity|].
  apply IH.
Qed.

(** X15.  The filter of line 106 is taken before the loop over the
    captured requests: it keeps every request whose address was not
    processed in an earlier cycle, so requests of one cycle that share
    an address with each other are all processed. *)
Theorem fresh_requests_keeps_batch :
  forall (processed_urls : list string) (search_requests : list Request),
    (forall r, In r search_requests -> ~ In (url r) processed_urls) ->
    Search.fresh_requests processed_urls search_requests = search_requests.
Proof.
  intros processed_urls search_requests Hfresh.
  induction search_requests as [|r rs IH]; [reflexivity|].
  unfold Search.fresh_requests in *. cbn [filter].
  assert (Hr : existsb (String.eqb (url r)) processed_urls = false).
  { destruct (existsb _ _) eqn:Hex; [|reflexivity].
    apply known_In in Hex. exfalso.
    exact (Hfresh r (or_introl eq_refl) Hex). }
  rewrite Hr. cbn [negb]. rewrite IH; [reflexivity|].
  intros r' Hin. apply Hfresh. right. exact Hin.
Qed.

(** ** What normalisation keeps *)




(** ** What [User.videos] hands out *)







(** ** The further properties on the scenarios *)

Import Cases.

Lemma search_never_reads_earlier_address_witness :
  read_urls (firstn 12 (fst search_run)) =
    ["https://www.tiktok.com/api/search/item/full/?offset=0"%string] /\
  ~ In (url (search_page "12" (found_text "2" "0")))
       (read_urls (firstn 12 (fst search_run))).
Proof.
  split; [reflexivity|].
  exact (search_never_reads_earlier_address search_pages 10 [] (JStr "cats")
           "item" 10 (firstn 12 (fst search_run)) [] (skipn 14 (fst search_run))
           "api/search/item" (search_page "12" (found_text "2" "0")) eq_refl).
Defined.

Lemma search_delays_before_each_capture_witness :
  exists t0, firstn 12 (fst search_run) = t0 ++ [Act RequestDelay].
Proof.
  exact (search_delays_before_each_capture search_pages 10 [] (JStr "cats")
           "item" 10 (firstn 12 (fst search_run)) (skipn 13 (fst search_run))
           "api/search/item" eq_refl).
Defined.

Lemma videos_delays_before_later_captures_witness :
  firstn 8 (fst kept_run) =
    [Act (Goto "https://www.tiktok.com/@alice");
     Act (WaitForContent "user-post-item")] \/
  exists t0, firstn 8 (fst kept_run) = t0 ++ [Act RequestDelay].
Proof.
  exact (videos_delays_before_later_captures kept_traffic 10 [] alice 10
           (firstn 8 (fst kept_run)) (skipn 9 (fst kept_run))
           "api/post/item_list" eq_refl).
Defined.

Lemma liked_counts_every_video_twice_witness :
  2 <= 2 * yielded (fst (TikTokUser.liked public_likes 3 [] alice_known 2 (JInt 0))) \/
  (exists out', fst (TikTokUser.liked public_likes 3 [] alice_known 2 (JInt 0))
                = out' ++ [Log Info TikTokUser.no_more_tiktoks]) \/
  (exists out', fst (TikTokUser.liked public_likes 3 [] alice_known 2 (JInt 0))
                = out' ++ [Log Error TikTokUser.likes_private]) \/
  (exists out' id sec cur,
      fst (TikTokUser.liked public_likes 3 [] alice_known 2 (JInt 0))
      = out' ++ [Act (GetData id sec cur)]).
Proof.
  exact (liked_counts_every_video_twice public_likes 3 [] alice_known 2 (JInt 0)
           (fst (TikTokUser.liked public_likes 3 [] alice_known 2 (JInt 0)))
           eq_refl).
Defined.

Lemma liked_threads_cursor_witness :
  exists rest,
    fst liked_run =
      [] ++ Act (GetData (JStr "1") (JStr "MS4") (JInt 0))
            :: map (fun v => Yield (video v)) [JInt 1]
            ++ Act (GetData (JStr "1") (JStr "MS4") (JInt 1)) :: rest.
Proof.
  exact (liked_threads_cursor public_likes 0 [] [] alice_known alice_known 5
           (JInt 0) (JInt 1) (JArr [JInt 1]) [JInt 1]
           [("itemList", JArr [JInt 1]); ("hasMore", JBool true);
            ("cursor", JInt 1)]
           eq_refl eq_refl eq_refl eq_refl eq_refl eq_refl eq_refl).
Defined.

Lemma user_of_data_shapes_witness :
  TikTokUser.User_of_data search_pages (person "1" "alice") =
    ([], Ok alice_found) /\
  TikTokUser.User_of_data search_pages (JObj flat_alice) =
    ([], Ok {| username := JStr "alice"; user_id := JStr "1";
               sec_uid := JStr "MS41"; as_dict := Some (JObj flat_alice) |}).
Proof.
  split.
  - destruct (user_of_data_shapes search_pages
                [("user_info",
                  JObj [("uid", JStr "1"); ("sec_uid", JStr "MS41");
                        ("unique_id", JStr "alice")])]
                (JStr "1") (JStr "MS41") (JStr "alice") eq_refl eq_refl eq_refl)
      as [Hnested _].
    exact (Hnested _ eq_refl eq_refl eq_refl eq_refl).
  - destruct (user_of_data_shapes search_pages flat_alice
                (JStr "1") (JStr "MS41") (JStr "alice") eq_refl eq_refl eq_refl)
      as [_ Hflat].
    exact (Hflat eq_refl eq_refl eq_refl eq_refl).
Defined.

Lemma user_of_unknown_shape_witness :
  snd (TikTokUser.User_of_data search_pages (JObj [("nickname", JStr "Alice")])) =
    Ok {| username := JNull; user_id := JNull; sec_uid := JNull;
          as_dict := Some (JObj [("nickname", JStr "Alice")]) |} /\
  exists msg,
    fst (TikTokUser.User_of_data search_pages (JObj [("nickname", JStr "Alice")]))
    = [Log Error msg].
Proof.
  exact (user_of_unknown_shape search_pages [("nickname", JStr "Alice")]
           eq_refl eq_refl).
Defined.

Lemma user_of_incomplete_info_witness :
  TikTokUser.User_of_data search_pages
    (JObj [("user_info", JObj [("uid", JStr "1"); ("unique_id", JStr "alice")])])
  = ([], Err KeyError).
Proof.
  exact (user_of_incomplete_info search_pages
           [("user_info", JObj [("uid", JStr "1"); ("unique_id", JStr "alice")])]
           [("uid", JStr "1"); ("unique_id", JStr "alice")]
           eq_refl (or_intror (or_introl eq_refl))).
Defined.

Lemma getattr_loads_profile_witness :
  UserAccess.getattr resolving [] alice "as_dict" =
    ([Act (HttpGet "https://tiktok.com/@alice?lang=en")],
     Ok ({| username := JStr "alice"; user_id := JStr "1";
            sec_uid := JStr "MS41"; as_dict := Some (JObj flat_alice) |},
         JObj flat_alice)).
Proof.
  exact (proj1 (getattr_loads_profile resolving []
                  [Act (HttpGet "https://tiktok.com/@alice?lang=en")] alice
                  flat_alice (JStr "1") (JStr "MS41") (JStr "alice")
                  eq_refl eq_refl eq_refl eq_refl eq_refl
                  eq_refl eq_refl eq_refl)).
Defined.

Lemma no_match_search_fails :
  no_match (JStr "alice")
    [Act RequestDelay; Act (GetRequests "api/search/user")].
Proof.
  intros i [Hin|[Hin|[]]]; discriminate.
Qed.

Lemma find_attributes_search_error_witness :
  TikTokUser.find_attributes search_fails [] alice =
    ([Act RequestDelay; Act (GetRequests "api/search/user")],
     Raised CaptchaException).
Proof.
  exact (find_attributes_search_error search_fails []
           [Act RequestDelay; Act (GetRequests "api/search/user")] alice
           CaptchaException eq_refl no_match_search_fails).
Defined.

Lemma info_full_returns_user_info_witness :
  exists (name text data : string) (user props user_props code : json),
    username alice = JStr name /\
    fst (TikTokUser.info_full resolving [] alice) =
      [Act (HttpGet (TikTokUser.profile_url resolving name))] /\
    requests_get resolving
      ([] ++ [Act (HttpGet (TikTokUser.profile_url resolving name))])
      (TikTokUser.profile_url resolving name) = Ok text /\
    extract_tag_contents resolving text = Ok data /\
    json_loads resolving data = Some user /\
    item user "props" = Ok props /\
    item props "pageProps" = Ok user_props /\
    item user_props "statusCode" = Ok code /\
    py_eq_int code 404 = false /\
    item user_props "userInfo" = Ok (JObj [("user", JObj flat_alice)]).
Proof.
  exact (info_full_returns_user_info resolving [] alice
           (JObj [("user", JObj flat_alice)]) eq_refl).
Defined.

Lemma not_processed_before (r : Request) : In r twice -> ~ In (url r) [].
Proof. intros _ []. Qed.

Lemma fresh_requests_keeps_batch_witness :
  Search.fresh_requests [] twice = twice.
Proof.
  exact (fresh_requests_keeps_batch [] twice not_processed_before).
Defined.

